(** * gangway: the process entry point (cmd/gangway/main.go)

    A shallow embedding of [main], [httpLogger] and of the library
    calls they make (logrus, crypto/x509, net/http's ServeMux and
    Server, alice, os/signal), followed by the properties of the
    start-up sequence, of the routing table and of the serve/shutdown
    life cycle. *)

From Stdlib Require Import ZArith Lia Ascii String.
From stdpp Require Import base strings gmap list pretty.

Open Scope Z_scope.
Open Scope string_scope.

(** Go's [error] values are carried by their message. *)
Definition error : Type := string.

(** ** net/url

    The URL of a server request: its path and its query. A request
    holds a pointer to one such object. *)
Record Url : Type := { Path : string; RawQuery : string }.

(** A URL as its [String] method prints it (for a path that needs no
    escaping). *)
Definition url_String (u : Url) : string :=
  if decide (RawQuery u = "") then Path u else Path u +:+ "?" +:+ RawQuery u.

(** ** fmt *)
Module Fmt.

(** A value passed as [interface{}] to a formatting or logging call.
    [VURL] stands for a [*url.URL]: it is printed from the object it
    points to at the time of printing. *)
Inductive Value : Type :=
| VStr (s : string)
| VInt (z : Z)
| VErr (e : error)
| VURL (u : Url).

(** An integer in decimal, as [%d] prints it. *)
Definition itoa (z : Z) : string := pretty z.

(** One verb applied to one operand; [None] where the operand does not
    fit the verb or the verb is not one of [%s], [%d], [%v]. *)
Definition verb (c : ascii) (v : Value) : option string :=
  if Ascii.eqb c "s" then
    match v with
    | VStr s => Some s
    | VErr e => Some e
    | VURL u => Some (url_String u)
    | VInt _ => None
    end
  else if Ascii.eqb c "d" then
    match v with
    | VInt z => Some (itoa z)
    | _ => None
    end
  else if Ascii.eqb c "v" then
    match v with
    | VStr s => Some s
    | VErr e => Some e
    | VURL u => Some (url_String u)
    | VInt z => Some (itoa z)
    end
  else None.

(** [fmt.Sprintf] for the verbs above; the operands are used in order,
    one per verb. *)
Fixpoint Sprintf (format : string) (args : list Value) : option string :=
  match format with
  | "" => match args with [] => Some "" | _ :: _ => None end
  | String a rest =>
    if Ascii.eqb a "%" then
      match rest with
      | "" => None
      | String c rest' =>
        match args with
        | [] => None
        | v :: args' =>
          match verb c v, Sprintf rest' args' with
          | Some shown, Some more => Some (shown +:+ more)
          | _, _ => None
          end
        end
      end
    else
      match Sprintf rest args with
      | Some more => Some (String a more)
      | None => None
      end
  end.

End Fmt.

(** ** logrus *)
Module Logrus.

Export Fmt.

Inductive Level : Type :=
| PanicLevel | FatalLevel | ErrorLevel | WarnLevel | InfoLevel | DebugLevel.

(** The package-level logging functions [main.go] calls, with the
    arguments as the code passes them. *)
Inductive Call : Type :=
| Printf (format : string) (args : list Value)
| Println (args : list Value)
| Errorf (format : string) (args : list Value)
| Fatalf (format : string) (args : list Value)
| Fatal (args : list Value).

(** [Printf] and [Println] log at info level; [Fatal] and [Fatalf] log
    at fatal level (and then end the process, see [log_Fatalf]). *)
Definition level (c : Call) : Level :=
  match c with
  | Printf _ _ | Println _ => InfoLevel
  | Errorf _ _ => ErrorLevel
  | Fatalf _ _ | Fatal _ => FatalLevel
  end.

Definition is_fatal (c : Call) : bool :=
  match level c with
  | FatalLevel | PanicLevel => true
  | _ => false
  end.

Definition args (c : Call) : list Value :=
  match c with
  | Printf _ a | Println a | Errorf _ a | Fatalf _ a | Fatal a => a
  end.

End Logrus.

(** ** Config *)

(** Modelled from the spec: the [Config] struct is declared in another
    file of the package; its fields are the ones the data model lists
    (ClientID, ClientSecret, RedirectURL, Scopes as an ordered sequence,
    AuthorizeURL, TokenURL, Host, Port, ServeTLS, CertFile, KeyFile,
    TrustedCAPath). *)
Record Config : Type := {
  ClientID : string;
  ClientSecret : string;
  RedirectURL : string;
  Scopes : list string;
  AuthorizeURL : string;
  TokenURL : string;
  Host : string;
  Port : Z;
  ServeTLS : bool;
  CertFile : string;
  KeyFile : string;
  TrustedCAPath : string
}.

(** ** golang.org/x/oauth2 *)
Module OAuth2.

Record Endpoint : Type := { AuthURL : string; TokenURL : string }.

Record Config : Type := {
  ClientID : string;
  ClientSecret : string;
  Endpoint_ : Endpoint;
  RedirectURL : string;
  Scopes : list string
}.

End OAuth2.

(** ** crypto/x509 and crypto/tls *)
Module X509.

(** A certificate is identified by its DER bytes; a pool holds each
    certificate once. *)
Definition Certificate : Type := string.
Abbreviation CertPool := (gset string).

Definition NewCertPool : CertPool := ∅.

Section Append.
(** The certificates held by the CERTIFICATE blocks of a PEM file that
    parse. *)
Variable pemCerts : string → list Certificate.

(** The pool's [AppendCertsFromPEM] method: every certificate found is added;
    the result tells whether any was. *)
Definition AppendCertsFromPEM (s : CertPool) (pemCerts_ : string) : CertPool * bool :=
  let found := pemCerts pemCerts_ in
  (s ∪ list_to_set found, bool_decide (found ≠ [])).
End Append.

End X509.

Module TLS.
Record Config : Type := { RootCAs : X509.CertPool }.
End TLS.

(** ** net/http: requests, responses, handlers *)
Module Http.

Definition StatusMovedPermanently : Z := 301.
Definition StatusFound : Z := 302.
Definition StatusBadRequest : Z := 400.
Definition StatusNotFound : Z := 404.

(** The fields of [*http.Request] that are plain values. The URL object
    the request points to lives in the [Exchange], since it is shared by
    pointer. *)
Record Request : Type := {
  Method : string;
  Host : string;
  RemoteAddr : string;
  Cookie : string
}.

(** What has been written to an [http.ResponseWriter]; [Status] is 0
    until a status line is written. *)
Record Response : Type := {
  Status : Z;
  Header : gmap string string;
  Body : string
}.

Definition blank : Response := {| Status := 0; Header := ∅; Body := "" |}.

(** What a handler call can read and change: the request's URL object,
    the response under construction and the process-wide log. *)
Record Exchange : Type := {
  URL : Url;
  w : Response;
  stdlog : list Logrus.Call
}.

(** How a handler call ends. *)
Inductive Completion : Type :=
| Returns
| Panics (v : string).

Definition HandlerFunc : Type := Request → Exchange → Exchange * Completion.

Definition log (c : Logrus.Call) (x : Exchange) : Exchange :=
  {| URL := URL x; w := w x; stdlog := stdlog x ++ [c] |}.

Definition respond (f : Response → Response) (x : Exchange) : Exchange :=
  {| URL := URL x; w := f (w x); stdlog := stdlog x |}.

(** [http.Redirect] with a rooted target: the Location header and the
    status code. (The short HTML body it writes for GET is left out.) *)
Definition Redirect (url : string) (code : Z) : HandlerFunc := fun _ x =>
  (respond (fun r => {| Status := code;
                        Header := <["Location" := url]> (Header r);
                        Body := Body r |}) x, Returns).

Definition RedirectHandler (url : string) (code : Z) : HandlerFunc :=
  Redirect url code.

(** [http.NotFound]: the status and the text of the body. *)
Definition NotFoundHandler : HandlerFunc := fun _ x =>
  (respond (fun r => {| Status := StatusNotFound;
                        Header := Header r;
                        Body := "404 page not found" |}) x, Returns).

(** *** Path cleaning ([path.Clean] on rooted paths, [cleanPath]) *)

Definition slash : ascii := "/"%char.

(** The elements of a path between its slashes. *)
Fixpoint elements_of (p : string) : list string :=
  match p with
  | "" => [""]
  | String a p' =>
    if decide (a = slash) then "" :: elements_of p'
    else match elements_of p' with
         | [] => [String a ""]
         | e :: es => String a e :: es
         end
  end.

(** One element against the elements kept so far (innermost first):
    empty and [.] elements are dropped, [..] removes the element before
    it, and is itself dropped at the root. *)
Definition clean_elem (kept : list string) (e : string) : list string :=
  if decide (e = "") then kept
  else if decide (e = ".") then kept
  else if decide (e = "..") then tail kept
  else e :: kept.

Fixpoint join_slash (es : list string) : string :=
  match es with
  | [] => ""
  | [e] => e
  | e :: es' => e +:+ String slash (join_slash es')
  end.

(** [path.Clean] of a rooted path. *)
Definition Clean (p : string) : string :=
  String slash (join_slash (rev (foldl clean_elem [] (elements_of p)))).

Fixpoint last_char (p : string) : option ascii :=
  match p with
  | "" => None
  | String a "" => Some a
  | String _ p' => last_char p'
  end.

Definition first_char (p : string) : option ascii :=
  match p with
  | "" => None
  | String a _ => Some a
  end.

(** [cleanPath]: the canonical path for [p], eliminating [.] and [..]
    elements and repeated slashes, keeping a trailing slash. *)
Definition cleanPath (p : string) : string :=
  if decide (p = "") then "/"
  else
    let p := if decide (first_char p = Some slash) then p else String slash p in
    let np := Clean p in
    if decide (last_char p = Some slash ∧ np ≠ "/") then np +:+ "/" else np.

(** *** ServeMux *)

(** The registered patterns with their handlers ([mux.m]). *)
Abbreviation ServeMux := (gmap string HandlerFunc).

(** [Handle] panics (here: [None]) on an empty pattern and on a pattern
    that is already registered. No pattern of this program names a host,
    and its only subtree pattern is the root, so the host table and the
    implicit redirect to a subtree's root are left out. *)
Definition Handle (pattern : string) (handler : HandlerFunc) (mux : ServeMux)
  : option ServeMux :=
  if decide (pattern = "") then None
  else if decide (is_Some (mux !! pattern)) then None
  else Some (<[pattern := handler]> mux).

(** Does a path match a pattern? A pattern that does not end in a slash
    names one path; one that does names every path below it. *)
Definition pathMatch (pattern path : string) : bool :=
  if decide (pattern = "") then false
  else if decide (last_char pattern = Some slash)
       then String.prefix pattern path
       else bool_decide (pattern = path).

(** One round of the loop of [match]: a matching pattern replaces the
    best one so far when there is none or when it is longer. *)
Definition longest (path : string) (best : option (HandlerFunc * string))
    (e : string * HandlerFunc) : option (HandlerFunc * string) :=
  if pathMatch e.1 path then
    match best with
    | None => Some (e.2, e.1)
    | Some (_, k) =>
      if decide (String.length k < String.length e.1)%nat then Some (e.2, e.1) else best
    end
  else best.

(** [match]: an exact match first, then the longest matching pattern. *)
Definition match_ (mux : ServeMux) (path : string) : option (HandlerFunc * string) :=
  match mux !! path with
  | Some h => Some (h, path)
  | None => foldl (longest path) None (map_to_list mux)
  end.

(** [handler]: the handler and the pattern for a path, the not-found
    handler when nothing matches. *)
Definition handler (mux : ServeMux) (host path : string) : HandlerFunc * string :=
  match match_ mux path with
  | Some hp => hp
  | None => (NotFoundHandler, "")
  end.

(** [Handler]: a request other than CONNECT whose path is not in
    canonical form is answered by a permanent redirect to the cleaned
    path; otherwise the path is looked up as it is. *)
Definition Handler (mux : ServeMux) (r : Request) (u : Url) : HandlerFunc * string :=
  if decide (Method r ≠ "CONNECT") then
    let p := cleanPath (Path u) in
    if decide (p ≠ Path u) then
      (RedirectHandler (url_String {| Path := p; RawQuery := RawQuery u |})
                       StatusMovedPermanently,
       (handler mux (Host r) p).2)
    else handler mux (Host r) (Path u)
  else handler mux (Host r) (Path u).

(** [ServeHTTP] of the mux. The request target [*] is parsed into a
    URL whose path is [*]; the check is written on the path. *)
Definition ServeHTTP (mux : ServeMux) : HandlerFunc := fun r x =>
  if decide (Path (URL x) = "*") then
    (respond (fun r => {| Status := StatusBadRequest;
                          Header := <["Connection" := "close"]> (Header r);
                          Body := Body r |}) x, Returns)
  else (Handler mux r (URL x)).1 r x.

End Http.

Module HttpServer.

(** [time.Duration] counts nanoseconds. *)
Definition Duration : Type := Z.
Definition Nanosecond : Duration := 1.
Definition Second : Duration := 1000000000 * Nanosecond.

Record Transport : Type := { TLSClientConfig : TLS.Config }.
Record Client : Type := { Transport_ : Transport }.

(** The fields of [http.Server] that [main] sets. The handler is left
    nil, which selects the default mux. *)
Record Server : Type := {
  Addr : string;
  ReadTimeout : Duration;
  WriteTimeout : Duration
}.

(** The address [ListenAndServe] and [ListenAndServeTLS] listen on. *)
Definition listen_addr (srv : Server) : string :=
  if decide (Addr srv = "") then ":http" else Addr srv.

Definition listen_addr_tls (srv : Server) : string :=
  if decide (Addr srv = "") then ":https" else Addr srv.

Definition ErrServerClosed : error := "http: Server closed".

End HttpServer.

(** ** context *)
Module Context.

(** A context, as far as [Shutdown] looks at it: the instant at which it
    is done, if there is one. *)
Record Ctx : Type := { Deadline : option nat }.

(** [context.Background()] is never cancelled and has no deadline. *)
Definition Background : Ctx := {| Deadline := None |}.

Definition WithDeadline (d : nat) : Ctx := {| Deadline := Some d |}.

(** Is the context done at instant [now]? *)
Definition Done (ctx : Ctx) (now : nat) : bool :=
  match Deadline ctx with
  | None => false
  | Some d => bool_decide (d ≤ now)%nat
  end.

End Context.

(** ** github.com/justinas/alice *)
Module Alice.

Definition Constructor : Type := Http.HandlerFunc → Http.HandlerFunc.
Definition Chain : Type := list Constructor.

Definition New (constructors : list Constructor) : Chain := constructors.

(** [Then] applies the constructors so that the first one is the
    outermost: [New(m1, m2).Then(h)] is [m1(m2(h))]. *)
Definition Then (c : Chain) (h : Http.HandlerFunc) : Http.HandlerFunc :=
  foldr (fun m acc => m acc) h c.

Definition ThenFunc (c : Chain) (fn : Http.HandlerFunc) : Http.HandlerFunc :=
  Then c fn.

End Alice.

(** ** package main *)

(** The cookie store behind the sessions, by its key material. *)
Definition CookieStore : Type := list string.

(** The functions of package main that other files define. The handlers
    are functions of the request and of the exchange; they read the
    package variables and do not assign them. *)
Record Package : Type := {
  NewConfig : string → Config + error;
  newSessionStore : Config → CookieStore;
  IsAuthenticated : Http.Request → bool;
  homeHandler : Http.HandlerFunc;
  loginHandler : Http.HandlerFunc;
  callbackHandler : Http.HandlerFunc;
  logoutHandler : Http.HandlerFunc;
  commandlineHandler : Http.HandlerFunc
}.

(** What the process finds around it when it starts. *)
Record Env : Type := {
  (** the value of the [-config] flag *)
  flag_config : string;
  (** [x509.SystemCertPool()]; [None] is the nil pool *)
  SystemCertPool : option X509.CertPool;
  (** [ioutil.ReadFile] *)
  ReadFile : string → string + error;
  (** the certificates a PEM file holds *)
  pemCerts : string → list X509.Certificate
}.

(** The package variables, the default mux and the log written so far. *)
Record World : Type := {
  cfg : option Config;
  oauth2Cfg : option OAuth2.Config;
  sessionStore : option CookieStore;
  httpClient : option HttpServer.Client;
  DefaultServeMux : Http.ServeMux;
  logged : list Logrus.Call
}.

(** All package variables are nil when [main] starts. *)
Definition initial : World :=
  {| cfg := None; oauth2Cfg := None; sessionStore := None; httpClient := None;
     DefaultServeMux := ∅; logged := [] |}.

(** *** Sequential code that may end the process *)

Inductive Outcome (A : Type) : Type :=
| Continue (a : A) (wd : World)
| Exited (code : Z) (wd : World)
| Panicked (msg : string) (wd : World).
Arguments Continue {A} a wd.
Arguments Exited {A} code wd.
Arguments Panicked {A} msg wd.

Definition Proc (A : Type) : Type := World → Outcome A.

Definition ret {A} (a : A) : Proc A := fun wd => Continue a wd.

Definition bind {A B} (c : Proc A) (k : A → Proc B) : Proc B := fun wd =>
  match c wd with
  | Continue a wd' => k a wd'
  | Exited code wd' => Exited code wd'
  | Panicked msg wd' => Panicked msg wd'
  end.

Notation "'let*' x ':=' c 'in' k" := (bind c (fun x => k))
  (at level 10, x name, c at level 100, k at level 200).
Notation "c ';;;' k" := (bind c (fun _ => k))
  (at level 100, k at level 200, right associativity).

Definition os_Exit {A} (code : Z) : Proc A := fun wd => Exited code wd.

Definition panic {A} (msg : string) : Proc A := fun wd => Panicked msg wd.

Definition write_log (c : Logrus.Call) : Proc unit := fun wd =>
  Continue tt {| cfg := cfg wd; oauth2Cfg := oauth2Cfg wd; sessionStore := sessionStore wd;
                 httpClient := httpClient wd; DefaultServeMux := DefaultServeMux wd;
                 logged := logged wd ++ [c] |}.

Definition log_Println (args : list Fmt.Value) : Proc unit :=
  write_log (Logrus.Println args).

Definition log_Errorf (format : string) (args : list Fmt.Value) : Proc unit :=
  write_log (Logrus.Errorf format args).

(** [log.Fatalf] and [log.Fatal] write the line and call [os.Exit(1)]. *)
Definition log_Fatalf {A} (format : string) (args : list Fmt.Value) : Proc A :=
  write_log (Logrus.Fatalf format args) ;;; os_Exit 1.

Definition log_Fatal {A} (args : list Fmt.Value) : Proc A :=
  write_log (Logrus.Fatal args) ;;; os_Exit 1.

Definition set_cfg (c : Config) : Proc unit := fun wd =>
  Continue tt {| cfg := Some c; oauth2Cfg := oauth2Cfg wd; sessionStore := sessionStore wd;
                 httpClient := httpClient wd; DefaultServeMux := DefaultServeMux wd;
                 logged := logged wd |}.

Definition set_oauth2Cfg (c : OAuth2.Config) : Proc unit := fun wd =>
  Continue tt {| cfg := cfg wd; oauth2Cfg := Some c; sessionStore := sessionStore wd;
                 httpClient := httpClient wd; DefaultServeMux := DefaultServeMux wd;
                 logged := logged wd |}.

Definition set_sessionStore (c : CookieStore) : Proc unit := fun wd =>
  Continue tt {| cfg := cfg wd; oauth2Cfg := oauth2Cfg wd; sessionStore := Some c;
                 httpClient := httpClient wd; DefaultServeMux := DefaultServeMux wd;
                 logged := logged wd |}.

Definition set_httpClient (c : HttpServer.Client) : Proc unit := fun wd =>
  Continue tt {| cfg := cfg wd; oauth2Cfg := oauth2Cfg wd; sessionStore := sessionStore wd;
                 httpClient := Some c; DefaultServeMux := DefaultServeMux wd;
                 logged := logged wd |}.

(** [http.Handle] and [http.HandleFunc] register on the default mux. *)
Definition http_Handle (pattern : string) (h : Http.HandlerFunc) : Proc unit := fun wd =>
  match Http.Handle pattern h (DefaultServeMux wd) with
  | None => Panicked ("http: invalid or repeated pattern " +:+ pattern) wd
  | Some mux =>
    Continue tt {| cfg := cfg wd; oauth2Cfg := oauth2Cfg wd; sessionStore := sessionStore wd;
                   httpClient := httpClient wd; DefaultServeMux := mux;
                   logged := logged wd |}
  end.

Definition http_HandleFunc := http_Handle.

(** [httpLogger]: the wrapper for http logging. The deferred call has
    its operands evaluated before [fn] runs (the method and the remote
    address as strings, the URL as a pointer) and writes its line when
    the wrapper is left, whether [fn] returns or panics. *)
Definition httpLogger (fn : Http.HandlerFunc) : Http.HandlerFunc := fun r x =>
  let method := Http.Method r in
  let remote := Http.RemoteAddr r in
  let '(x', done) := fn r x in
  (Http.log (Logrus.Printf "%s %s %s"
               [Fmt.VStr method; Fmt.VURL (Http.URL x'); Fmt.VStr remote]) x',
   done).

Section Main.

Variable pkg : Package.
Variable env : Env.

(** Modelled from the spec: [loginRequired], the access middleware, is
    defined in another file of the package. It wraps a protected
    handler and asks [IsAuthenticated]: when that is false it answers
    with a 302 redirect to /login and does not invoke the wrapped
    handler; when it is true it invokes the handler unchanged. *)
Definition loginRequired (next : Http.HandlerFunc) : Http.HandlerFunc := fun r x =>
  if IsAuthenticated pkg r then next r x
  else Http.Redirect "/login" Http.StatusFound r x.

(** [initSessionStore] is defined in another file: it sets up the
    cookie store of the sessions. *)
Definition initSessionStore (c : Config) : Proc unit :=
  set_sessionStore (newSessionStore pkg c).

(** The address the server is given: [fmt.Sprintf("%s:%d", host, port)]. *)
Definition bindAddr_of (c : Config) : string :=
  default "" (Fmt.Sprintf "%s:%d" [Fmt.VStr (Host c); Fmt.VInt (Port c)]).

(** [main] up to the point where the server value is built (lines
    51-115): it yields the [httpServer] or ends the process. *)
Definition main_startup : Proc HttpServer.Server :=
  let cfgFile := flag_config env in
  match NewConfig pkg cfgFile with
  | inr err =>
    log_Errorf "Could not parse config file: %s" [Fmt.VErr err] ;;;
    os_Exit 1
  | inl c =>
    set_cfg c ;;;
    set_oauth2Cfg
      {| OAuth2.ClientID := ClientID c;
         OAuth2.ClientSecret := ClientSecret c;
         OAuth2.RedirectURL := RedirectURL c;
         OAuth2.Scopes := Scopes c;
         OAuth2.Endpoint_ := {| OAuth2.AuthURL := AuthorizeURL c;
                                OAuth2.TokenURL := TokenURL c |} |} ;;;
    let rootCAs :=
      match SystemCertPool env with
      | Some pool => pool
      | None => X509.NewCertPool
      end in
    let* rootCAs :=
      if decide (TrustedCAPath c ≠ "") then
        match ReadFile env (TrustedCAPath c) with
        | inr err =>
          log_Fatalf "Failed to append %q to RootCAs: %v"
                     [Fmt.VStr (TrustedCAPath c); Fmt.VErr err]
        | inl certs =>
          let '(pool, ok) := X509.AppendCertsFromPEM (pemCerts env) rootCAs certs in
          (if ok then ret tt
           else log_Println [Fmt.VStr "No certs appended, using system certs only"]) ;;;
          ret pool
        end
      else ret rootCAs in
    let config := {| TLS.RootCAs := rootCAs |} in
    let tr := {| HttpServer.TLSClientConfig := config |} in
    set_httpClient {| HttpServer.Transport_ := tr |} ;;;
    initSessionStore c ;;;
    let loginRequiredHandlers := Alice.New [loginRequired] in
    http_HandleFunc "/" (httpLogger (homeHandler pkg)) ;;;
    http_HandleFunc "/login" (httpLogger (loginHandler pkg)) ;;;
    http_HandleFunc "/callback" (httpLogger (callbackHandler pkg)) ;;;
    http_Handle "/logout" (Alice.ThenFunc loginRequiredHandlers (logoutHandler pkg)) ;;;
    http_Handle "/commandline"
                (Alice.ThenFunc loginRequiredHandlers (commandlineHandler pkg)) ;;;
    let bindAddr := bindAddr_of c in
    ret {| HttpServer.Addr := bindAddr;
           HttpServer.ReadTimeout := 10 * HttpServer.Second;
           HttpServer.WriteTimeout := 10 * HttpServer.Second |}
  end.

End Main.

(** ** The running process: [main] from line 118 on, the serve
    goroutine, the connections and the signals *)

Inductive Signal : Type := SIGINT | SIGTERM.

(** How the process ended. *)
Inductive ExitStatus : Type :=
| ExitCode (code : Z)
| KilledBy (sig : Signal).

(** Where [main] stands. *)
Inductive MainPC : Type :=
| AtGo                                (* line 118: the go statement *)
| AtMakeChan                          (* line 129 *)
| AtNotify                            (* line 130 *)
| AtReceive                           (* line 131: waits for a signal *)
| AtLogShutdown                       (* line 133 *)
| AtShutdown                          (* line 135: calls Shutdown *)
| InShutdown (ctx : Context.Ctx)      (* inside Shutdown *)
| AtReturn.                           (* the end of main *)

(** Where the goroutine of lines 118-126 stands. [tls] holds the
    certificate and key files when the TLS variant was called. *)
Inductive ServePC : Type :=
| NotStarted
| AtServe                                        (* line 121 *)
| Listening (tls : option (string * string))     (* called, not bound yet *)
| Serving (tls : option (string * string))       (* in the accept loop *)
| ServeReturned (err : error).                   (* about to call log.Fatal *)

(** A connection with a request whose handler has not finished. *)
Record Conn : Type := { request : Http.Request; url : Url }.

Record Sys : Type := {
  world : World;
  httpServer : HttpServer.Server;
  mainpc : MainPC;
  servepc : ServePC;
  (** the address the listener is bound to, while it is open *)
  listener : option string;
  (** set by Shutdown *)
  inShutdown : bool;
  (** the requests in flight *)
  active : list Conn;
  (** the finished exchanges, oldest first *)
  answered : list (Http.Request * Http.Response * Http.Completion);
  (** [signalChan], once made: the signals it holds (capacity 1) *)
  signalChan : option (list Signal);
  (** has [signal.Notify] been called? *)
  notified : bool;
  (** the clock *)
  now : nat;
  (** set when the process has ended *)
  status : option ExitStatus
}.

(** The process as [main] reaches line 118. *)
Definition boot (wd : World) (srv : HttpServer.Server) : Sys :=
  {| world := wd; httpServer := srv; mainpc := AtGo; servepc := NotStarted;
     listener := None; inShutdown := false; active := []; answered := [];
     signalChan := None; notified := false; now := 0%nat; status := None |}.

Definition with_main (pc : MainPC) (s : Sys) : Sys :=
  {| world := world s; httpServer := httpServer s; mainpc := pc; servepc := servepc s;
     listener := listener s; inShutdown := inShutdown s; active := active s;
     answered := answered s; signalChan := signalChan s; notified := notified s;
     now := now s; status := status s |}.

Definition with_serve (pc : ServePC) (s : Sys) : Sys :=
  {| world := world s; httpServer := httpServer s; mainpc := mainpc s; servepc := pc;
     listener := listener s; inShutdown := inShutdown s; active := active s;
     answered := answered s; signalChan := signalChan s; notified := notified s;
     now := now s; status := status s |}.

Definition with_listener (l : option string) (s : Sys) : Sys :=
  {| world := world s; httpServer := httpServer s; mainpc := mainpc s; servepc := servepc s;
     listener := l; inShutdown := inShutdown s; active := active s;
     answered := answered s; signalChan := signalChan s; notified := notified s;
     now := now s; status := status s |}.

Definition with_inShutdown (b : bool) (s : Sys) : Sys :=
  {| world := world s; httpServer := httpServer s; mainpc := mainpc s; servepc := servepc s;
     listener := listener s; inShutdown := b; active := active s;
     answered := answered s; signalChan := signalChan s; notified := notified s;
     now := now s; status := status s |}.

Definition with_active (a : list Conn) (s : Sys) : Sys :=
  {| world := world s; httpServer := httpServer s; mainpc := mainpc s; servepc := servepc s;
     listener := listener s; inShutdown := inShutdown s; active := a;
     answered := answered s; signalChan := signalChan s; notified := notified s;
     now := now s; status := status s |}.

Definition with_answered (a : list (Http.Request * Http.Response * Http.Completion))
    (s : Sys) : Sys :=
  {| world := world s; httpServer := httpServer s; mainpc := mainpc s; servepc := servepc s;
     listener := listener s; inShutdown := inShutdown s; active := active s;
     answered := a; signalChan := signalChan s; notified := notified s;
     now := now s; status := status s |}.

Definition with_signalChan (c : option (list Signal)) (s : Sys) : Sys :=
  {| world := world s; httpServer := httpServer s; mainpc := mainpc s; servepc := servepc s;
     listener := listener s; inShutdown := inShutdown s; active := active s;
     answered := answered s; signalChan := c; notified := notified s;
     now := now s; status := status s |}.

Definition with_notified (b : bool) (s : Sys) : Sys :=
  {| world := world s; httpServer := httpServer s; mainpc := mainpc s; servepc := servepc s;
     listener := listener s; inShutdown := inShutdown s; active := active s;
     answered := answered s; signalChan := signalChan s; notified := b;
     now := now s; status := status s |}.

Definition with_now (n : nat) (s : Sys) : Sys :=
  {| world := world s; httpServer := httpServer s; mainpc := mainpc s; servepc := servepc s;
     listener := listener s; inShutdown := inShutdown s; active := active s;
     answered := answered s; signalChan := signalChan s; notified := notified s;
     now := n; status := status s |}.

Definition with_status (e : ExitStatus) (s : Sys) : Sys :=
  {| world := world s; httpServer := httpServer s; mainpc := mainpc s; servepc := servepc s;
     listener := listener s; inShutdown := inShutdown s; active := active s;
     answered := answered s; signalChan := signalChan s; notified := notified s;
     now := now s; status := Some e |}.

(** A line written to the log by any goroutine. *)
Definition with_logged (l : list Logrus.Call) (s : Sys) : Sys :=
  {| world := {| cfg := cfg (world s); oauth2Cfg := oauth2Cfg (world s);
                 sessionStore := sessionStore (world s);
                 httpClient := httpClient (world s);
                 DefaultServeMux := DefaultServeMux (world s);
                 logged := l |};
     httpServer := httpServer s; mainpc := mainpc s; servepc := servepc s;
     listener := listener s; inShutdown := inShutdown s; active := active s;
     answered := answered s; signalChan := signalChan s; notified := notified s;
     now := now s; status := status s |}.

Definition sys_log (c : Logrus.Call) (s : Sys) : Sys :=
  with_logged (logged (world s) ++ [c]) s.

(** *** The steps of each thread of control *)

(** [Shutdown(ctx)], first part: the server is marked as shutting down
    and its listener is closed, so that the serve call returns
    [ErrServerClosed] and nothing more is accepted. *)
Definition Shutdown_begin (ctx : Context.Ctx) (s : Sys) : Sys :=
  with_main (InShutdown ctx) (with_listener None (with_inShutdown true s)).

(** [Shutdown(ctx)], second part: it returns once no connection is
    active, or once the context is done (the connections still active
    are then left behind); until then it waits. *)
Definition Shutdown_wait (ctx : Context.Ctx) (s : Sys) : option Sys :=
  match active s with
  | [] => Some (with_main AtReturn s)
  | _ :: _ =>
    if Context.Done ctx (now s) then Some (with_main AtReturn s) else None
  end.

(** One step of [main]; [None] when it is blocked. *)
Definition step_main (s : Sys) : option Sys :=
  match mainpc s with
  | AtGo => Some (with_serve AtServe (with_main AtMakeChan s))
  | AtMakeChan => Some (with_signalChan (Some []) (with_main AtNotify s))
  | AtNotify => Some (with_notified true (with_main AtReceive s))
  | AtReceive =>
    match signalChan s with
    | Some (_ :: rest) => Some (with_signalChan (Some rest) (with_main AtLogShutdown s))
    | _ => None
    end
  | AtLogShutdown =>
    Some (sys_log (Logrus.Println [Fmt.VStr "Shutdown signal received, exiting."])
                  (with_main AtShutdown s))
  | AtShutdown => Some (Shutdown_begin Context.Background s)
  | InShutdown ctx => Shutdown_wait ctx s
  | AtReturn => Some (with_status (ExitCode 0) s)
  end.

(** One step of the serve goroutine on its own; [None] when it waits
    (for the outcome of binding, or in the accept loop). *)
Definition step_serve (s : Sys) : option Sys :=
  match servepc s with
  | NotStarted => None
  | AtServe =>
    match cfg (world s) with
    | None => Some (with_status (ExitCode 2) s)       (* nil dereference *)
    | Some c =>
      if ServeTLS c
      then Some (with_serve (Listening (Some (CertFile c, KeyFile c))) s)
      else Some (with_serve (Listening None) s)
    end
  | Listening _ | Serving _ =>
    if inShutdown s
    then Some (with_serve (ServeReturned HttpServer.ErrServerClosed) s)
    else None
  | ServeReturned err =>
    (* log.Fatal(err) *)
    Some (with_status (ExitCode 1) (sys_log (Logrus.Fatal [Fmt.VErr err]) s))
  end.

(** The outcome of binding the listener (and, for TLS, of loading the
    certificate): success opens the listener on the server's address,
    failure makes the serve call return the error. *)
Definition step_listen (outcome : option error) (s : Sys) : option Sys :=
  match servepc s with
  | Listening tls =>
    if inShutdown s then None
    else
      match outcome with
      | None =>
        let addr := match tls with
                    | Some _ => HttpServer.listen_addr_tls (httpServer s)
                    | None => HttpServer.listen_addr (httpServer s)
                    end in
        Some (with_listener (Some addr) (with_serve (Serving tls) s))
      | Some err => Some (with_serve (ServeReturned err) s)
      end
  | _ => None
  end.

(** A connection is accepted and its request read: possible only while
    the accept loop runs on an open listener. *)
Definition step_accept (r : Http.Request) (u : Url) (s : Sys) : option Sys :=
  match servepc s, listener s with
  | Serving _, Some _ =>
    if inShutdown s then None
    else Some (with_active (active s ++ [{| request := r; url := u |}]) s)
  | _, _ => None
  end.

(** The handler of the [i]-th active request runs to its end: the
    server has no handler of its own, so the default mux serves. *)
Definition step_finish (i : nat) (s : Sys) : option Sys :=
  match active s !! i with
  | None => None
  | Some c =>
    let '(x, done) :=
      Http.ServeHTTP (DefaultServeMux (world s)) (request c)
        {| Http.URL := url c; Http.w := Http.blank; Http.stdlog := logged (world s) |} in
    Some (with_logged (Http.stdlog x)
            (with_answered (answered s ++ [(request c, Http.w x, done)])
               (with_active (delete i (active s)) s)))
  end.

(** A signal reaches the process. Once [signal.Notify] has been called
    it is sent to the channel without blocking (and dropped when the
    channel is full); before that it ends the process. *)
Definition step_signal (sig : Signal) (s : Sys) : option Sys :=
  if notified s then
    match signalChan s with
    | Some [] => Some (with_signalChan (Some [sig]) s)
    | _ => Some s
    end
  else Some (with_status (KilledBy sig) s).

Definition step_tick (s : Sys) : option Sys := Some (with_now (S (now s)) s).

Inductive Label : Type :=
| Main
| Serve
| Listen (outcome : option error)
| Accept (r : Http.Request) (u : Url)
| Finish (i : nat)
| Deliver (sig : Signal)
| Tick.

(** One step of the process. Nothing happens once it has ended. *)
Definition exec (l : Label) (s : Sys) : option Sys :=
  match status s with
  | Some _ => None
  | None =>
    match l with
    | Main => step_main s
    | Serve => step_serve s
    | Listen outcome => step_listen outcome s
    | Accept r u => step_accept r u s
    | Finish i => step_finish i s
    | Deliver sig => step_signal sig s
    | Tick => step_tick s
    end
  end.

Fixpoint run (ls : list Label) (s : Sys) : option Sys :=
  match ls with
  | [] => Some s
  | l :: ls' =>
    match exec l s with
    | Some s' => run ls' s'
    | None => None
    end
  end.

(** The states the process can be in after [s]. *)
Definition reaches (s s' : Sys) : Prop := ∃ ls, run ls s = Some s'.

(** ** What the start-up leaves behind, in the words of the design *)

(** The routing table: three logged routes, two gated ones. *)
Definition routes (pkg : Package) : Http.ServeMux :=
  <["/commandline" := loginRequired pkg (commandlineHandler pkg)]>
  (<["/logout" := loginRequired pkg (logoutHandler pkg)]>
  (<["/callback" := httpLogger (callbackHandler pkg)]>
  (<["/login" := httpLogger (loginHandler pkg)]>
  (<["/" := httpLogger (homeHandler pkg)]> ∅)))).

(** The system pool, or an empty pool when there is none. *)
Definition system_or_empty (env : Env) : X509.CertPool :=
  match SystemCertPool env with
  | Some pool => pool
  | None => ∅
  end.

(** The certificates parsed from the optional custom CA file. *)
Definition custom_CA_certs (env : Env) (c : Config) : X509.CertPool :=
  if decide (TrustedCAPath c = "") then ∅
  else
    match ReadFile env (TrustedCAPath c) with
    | inl pem => list_to_set (pemCerts env pem)
    | inr _ => ∅
    end.

(** The OAuth2 client descriptor derived from the configuration. *)
Definition descriptor_of (c : Config) : OAuth2.Config :=
  {| OAuth2.ClientID := ClientID c;
     OAuth2.ClientSecret := ClientSecret c;
     OAuth2.RedirectURL := RedirectURL c;
     OAuth2.Scopes := Scopes c;
     OAuth2.Endpoint_ := {| OAuth2.AuthURL := AuthorizeURL c;
                            OAuth2.TokenURL := TokenURL c |} |}.

(** The client that trusts a pool. *)
Definition client_trusting (pool : X509.CertPool) : HttpServer.Client :=
  {| HttpServer.Transport_ :=
       {| HttpServer.TLSClientConfig := {| TLS.RootCAs := pool |} |} |}.

(** The package variables after a start-up that trusts [pool] and has
    written the lines [lg]. *)
Definition started (pkg : Package) (c : Config) (pool : X509.CertPool)
    (lg : list Logrus.Call) : World :=
  {| cfg := Some c;
     oauth2Cfg := Some (descriptor_of c);
     sessionStore := Some (newSessionStore pkg c);
     httpClient := Some (client_trusting pool);
     DefaultServeMux := routes pkg;
     logged := lg |}.

Definition server_of (c : Config) : HttpServer.Server :=
  {| HttpServer.Addr := bindAddr_of c;
     HttpServer.ReadTimeout := 10 * HttpServer.Second;
     HttpServer.WriteTimeout := 10 * HttpServer.Second |}.

(** Kinds of labels: a step of the serve goroutine, a delivered
    signal, a finished request. *)
Definition is_Serve (l : Label) : bool :=
  match l with Serve => true | _ => false end.

Definition is_Deliver (l : Label) : bool :=
  match l with Deliver _ => true | _ => false end.


(** A serve call that fails to bind. *)
Definition is_failed_Listen (l : Label) : bool :=
  match l with Listen (Some _) => true | _ => false end.

(** The patterns [main] registers. *)
Definition patterns : list string :=
  ["/"; "/login"; "/callback"; "/logout"; "/commandline"].

(** The wrapper's line, for a handler that left the exchange [x']. *)
Definition access_line (r : Http.Request) (x' : Http.Exchange) : Logrus.Call :=
  Logrus.Printf "%s %s %s"
    [Fmt.VStr (Http.Method r); Fmt.VURL (Http.URL x'); Fmt.VStr (Http.RemoteAddr r)].

(** ** What stays true while the process runs *)

(** How far [main] has come. *)
Definition main_rank (pc : MainPC) : nat :=
  match pc with
  | AtGo => 0
  | AtMakeChan => 1
  | AtNotify => 2
  | AtReceive => 3
  | AtLogShutdown => 4
  | AtShutdown => 5
  | InShutdown _ => 6
  | AtReturn => 7
  end.

(** The address a serve call listens on. *)
Definition addr_for (tls : option (string * string)) (srv : HttpServer.Server) : string :=
  match tls with
  | Some _ => HttpServer.listen_addr_tls srv
  | None => HttpServer.listen_addr srv
  end.

(** The serve call [main] selects: the TLS variant with the configured
    certificate and key files, or the plain one. *)
Definition serve_call (c : Config) : option (string * string) :=
  if ServeTLS c then Some (CertFile c, KeyFile c) else None.

(** The invariant of the process started with server [srv] and package
    variables [wd0]. *)
Record Inv (srv : HttpServer.Server) (wd0 : World) (s : Sys) : Prop := {
  inv_server : httpServer s = srv;
  inv_cfg : cfg (world s) = cfg wd0;
  inv_oauth2Cfg : oauth2Cfg (world s) = oauth2Cfg wd0;
  inv_sessionStore : sessionStore (world s) = sessionStore wd0;
  inv_httpClient : httpClient (world s) = httpClient wd0;
  inv_mux : DefaultServeMux (world s) = DefaultServeMux wd0;
  inv_go : servepc s = NotStarted ↔ main_rank (mainpc s) = 0%nat;
  inv_chan : (2 ≤ main_rank (mainpc s))%nat → is_Some (signalChan s);
  inv_notified : notified s = bool_decide (3 ≤ main_rank (mainpc s))%nat;
  inv_inShutdown : inShutdown s = bool_decide (6 ≤ main_rank (mainpc s))%nat;
  inv_ctx : ∀ ctx, mainpc s = InShutdown ctx → ctx = Context.Background;
  inv_listener : ∀ a, listener s = Some a →
    ∃ tls, servepc s = Serving tls ∧ a = addr_for tls srv ∧ inShutdown s = false;
  inv_serving : ∀ tls, servepc s = Serving tls → inShutdown s = false →
    listener s = Some (addr_for tls srv);
  inv_call : ∀ tls c, servepc s = Listening tls ∨ servepc s = Serving tls →
    cfg wd0 = Some c → tls = serve_call c
}.

(** ** A sample deployment, to run the model on *)
Module Sample.

(** A handler that answers 200 with a page and writes a line of its own. *)
Definition page (name : string) : Http.HandlerFunc := fun _ x =>
  (Http.log (Logrus.Printf "rendered %s" [Fmt.VStr name])
     (Http.respond (fun _ => {| Http.Status := 200; Http.Header := ∅;
                                Http.Body := name |}) x),
   Http.Returns).

Definition config : Config :=
  {| ClientID := "gangway"; ClientSecret := "s3cret";
     RedirectURL := "https://gangway.example/callback";
     Scopes := ["openid"; "profile"];
     AuthorizeURL := "https://idp/auth"; TokenURL := "https://idp/token";
     Host := "0.0.0.0"; Port := 8080; ServeTLS := false;
     CertFile := "/etc/gangway/tls.crt"; KeyFile := "/etc/gangway/tls.key";
     TrustedCAPath := "/etc/gangway/ca.pem" |}.

Definition config_tls : Config :=
  {| ClientID := "gangway"; ClientSecret := "s3cret";
     RedirectURL := "https://gangway.example/callback";
     Scopes := ["openid"; "profile"];
     AuthorizeURL := "https://idp/auth"; TokenURL := "https://idp/token";
     Host := "0.0.0.0"; Port := 8443; ServeTLS := true;
     CertFile := "/etc/gangway/tls.crt"; KeyFile := "/etc/gangway/tls.key";
     TrustedCAPath := "" |}.

Definition pkg : Package :=
  {| NewConfig := fun file =>
       if decide (file = "gangway.yaml") then inl config
       else if decide (file = "gangway-tls.yaml") then inl config_tls
       else inr "open: no such file or directory";
     newSessionStore := fun c => [ClientSecret c];
     IsAuthenticated := fun r => bool_decide (Http.Cookie r = "gangway=alice");
     homeHandler := page "home";
     loginHandler := page "login";
     callbackHandler := page "callback";
     logoutHandler := page "logout";
     commandlineHandler := page "kubeconfig" |}.

(** The CA file holds one certificate. *)
Definition env : Env :=
  {| flag_config := "gangway.yaml";
     SystemCertPool := Some {["system-root"]};
     ReadFile := fun file =>
       if decide (file = "/etc/gangway/ca.pem") then inl "-----BEGIN CERTIFICATE-----corp"
       else inr "open: no such file or directory";
     pemCerts := fun pem =>
       if decide (pem = "-----BEGIN CERTIFICATE-----corp") then ["corp-ca"] else [] |}.

(** The CA file cannot be read. *)
Definition env_unreadable : Env :=
  {| flag_config := "gangway.yaml";
     SystemCertPool := Some {["system-root"]};
     ReadFile := fun _ => inr "open: permission denied";
     pemCerts := fun _ => [] |}.

(** The CA file is read and holds no certificate. *)
Definition env_no_certs : Env :=
  {| flag_config := "gangway.yaml";
     SystemCertPool := Some {["system-root"]};
     ReadFile := fun _ => inl "not a certificate";
     pemCerts := fun _ => [] |}.

(** The config file is missing. *)
Definition env_no_config : Env :=
  {| flag_config := "missing.yaml";
     SystemCertPool := Some {["system-root"]};
     ReadFile := fun _ => inr "open: no such file or directory";
     pemCerts := fun _ => [] |}.

(** TLS is served and no custom CA is configured. *)
Definition env_tls : Env :=
  {| flag_config := "gangway-tls.yaml";
     SystemCertPool := None;
     ReadFile := fun _ => inr "open: no such file or directory";
     pemCerts := fun _ => [] |}.

Definition get (path cookie : string) : Http.Request * Url :=
  ({| Http.Method := "GET"; Http.Host := "gangway.example";
      Http.RemoteAddr := "10.0.0.7:51234"; Http.Cookie := cookie |},
   {| Path := path; RawQuery := "" |}).

(** A fresh exchange for a request URL, with an empty log. *)
Definition fresh (u : Url) : Http.Exchange :=
  {| Http.URL := u; Http.w := Http.blank; Http.stdlog := [] |}.

(** The process after a successful start-up in [env]. *)
Definition world : World := started pkg config {["system-root"; "corp-ca"]} [].
Definition process : Sys := boot world (server_of config).

(** Both threads under way: the goroutine serves, [main] waits. *)
Definition to_serving : list Label :=
  [Main; Serve; Listen None; Main; Main].



End Sample.

(** * Properties *)

(** ** The start-up sequence, case by case *)

Lemma Handle_fresh (p : string) (h : Http.HandlerFunc) (mux : Http.ServeMux) :
  p ≠ "" → mux !! p = None → Http.Handle p h mux = Some (<[p := h]> mux).
Proof.
  intros Hp Hfree. unfold Http.Handle.
  destruct (decide (p = "")) as [|_]; [done|].
  destruct (decide (is_Some (mux !! p))) as [[h' Hh']|_]; [congruence|done].
Qed.

(** Runs the registrations of lines 101-107 on a table that starts empty. *)
Ltac register_all :=
  unfold http_HandleFunc, http_Handle, bind; cbn -[Http.Handle];
  repeat (rewrite Handle_fresh by (done || by simplify_map_eq);
          cbn -[Http.Handle]).

Lemma startup_config_error (pkg : Package) (env : Env) (err : error) :
  NewConfig pkg (flag_config env) = inr err →
  ∃ wd, main_startup pkg env initial = Exited 1 wd
        ∧ logged wd = [Logrus.Errorf "Could not parse config file: %s" [Fmt.VErr err]].
Proof.
  intros Herr. unfold main_startup. rewrite Herr.
  eexists. split; reflexivity.
Qed.

Lemma startup_without_ca (pkg : Package) (env : Env) (c : Config) :
  NewConfig pkg (flag_config env) = inl c →
  TrustedCAPath c = "" →
  main_startup pkg env initial
  = Continue (server_of c) (started pkg c (system_or_empty env) []).
Proof.
  intros Hc Hpath. unfold main_startup. rewrite Hc.
  destruct (decide (TrustedCAPath c ≠ "")) as [Hne|_]; [done|].
  register_all. reflexivity.
Qed.

Lemma startup_ca_unreadable (pkg : Package) (env : Env) (c : Config) (err : error) :
  NewConfig pkg (flag_config env) = inl c →
  TrustedCAPath c ≠ "" →
  ReadFile env (TrustedCAPath c) = inr err →
  ∃ wd, main_startup pkg env initial = Exited 1 wd
        ∧ logged wd = [Logrus.Fatalf "Failed to append %q to RootCAs: %v"
                         [Fmt.VStr (TrustedCAPath c); Fmt.VErr err]].
Proof.
  intros Hc Hpath Hread. unfold main_startup. rewrite Hc.
  destruct (decide (TrustedCAPath c ≠ "")) as [_|Heq]; [|done].
  rewrite Hread. eexists. split; reflexivity.
Qed.

Lemma startup_ca_read (pkg : Package) (env : Env) (c : Config) (pem : string) :
  NewConfig pkg (flag_config env) = inl c →
  TrustedCAPath c ≠ "" →
  ReadFile env (TrustedCAPath c) = inl pem →
  main_startup pkg env initial
  = Continue (server_of c)
      (started pkg c (system_or_empty env ∪ list_to_set (pemCerts env pem))
         (if bool_decide (pemCerts env pem ≠ []) then []
          else [Logrus.Println [Fmt.VStr "No certs appended, using system certs only"]])).
Proof.
  intros Hc Hpath Hread. unfold main_startup. rewrite Hc.
  destruct (decide (TrustedCAPath c ≠ "")) as [_|Heq]; [|done].
  rewrite Hread. unfold X509.AppendCertsFromPEM.
  destruct (bool_decide (pemCerts env pem ≠ [])); register_all; reflexivity.
Qed.

(** A start-up that goes through read its configuration, and leaves the
    package variables as [started] says. *)
Lemma startup_inv (pkg : Package) (env : Env) (srv : HttpServer.Server) (wd : World) :
  main_startup pkg env initial = Continue srv wd →
  ∃ c lg, NewConfig pkg (flag_config env) = inl c
          ∧ srv = server_of c
          ∧ wd = started pkg c (system_or_empty env ∪ custom_CA_certs env c) lg.
Proof.
  intros Hrun.
  destruct (NewConfig pkg (flag_config env)) as [c|err] eqn:Hc.
  - exists c. unfold custom_CA_certs.
    destruct (decide (TrustedCAPath c = "")) as [Hpath|Hpath].
    + rewrite (startup_without_ca pkg env c Hc Hpath) in Hrun.
      injection Hrun as <- <-. exists []. rewrite union_empty_r_L. done.
    + destruct (ReadFile env (TrustedCAPath c)) as [pem|err] eqn:Hread.
      * rewrite (startup_ca_read pkg env c pem Hc Hpath Hread) in Hrun.
        injection Hrun as <- <-. eauto.
      * destruct (startup_ca_unreadable pkg env c err Hc Hpath Hread) as (wd' & Hex & _).
        congruence.
  - destruct (startup_config_error pkg env err Hc) as (wd' & Hex & _). congruence.
Qed.

(** ** TLS trust *)

(** C1. When [TrustedCAPath] is set: if the file cannot be read, the
    start-up ends the process with exit code 1 after one line at fatal
    level that names the path and the error; if the file is read and
    no certificate is appended, one line that is not fatal is written,
    the start-up goes through, and the client trusts the pool it had
    before (the system pool, or the empty one). *)
Theorem trusted_ca_unreadable_fatal_empty_warns
    (pkg : Package) (env : Env) (c : Config) :
  NewConfig pkg (flag_config env) = inl c →
  TrustedCAPath c ≠ "" →
  (∀ err, ReadFile env (TrustedCAPath c) = inr err →
     ∃ wd line,
       main_startup pkg env initial = Exited 1 wd
       ∧ logged wd = [line]
       ∧ Logrus.level line = Logrus.FatalLevel
       ∧ Logrus.args line = [Fmt.VStr (TrustedCAPath c); Fmt.VErr err])
  ∧ (∀ pem, ReadFile env (TrustedCAPath c) = inl pem →
     pemCerts env pem = [] →
     ∃ srv wd,
       main_startup pkg env initial = Continue srv wd
       ∧ logged wd
         = [Logrus.Println [Fmt.VStr "No certs appended, using system certs only"]]
       ∧ Forall (fun line => Logrus.is_fatal line = false) (logged wd)
       ∧ httpClient wd = Some (client_trusting (system_or_empty env))).
Proof.
  intros Hc Hpath. split.
  - intros err Hread.
    destruct (startup_ca_unreadable pkg env c err Hc Hpath Hread) as (wd & Hex & Hlog).
    exists wd. eexists. repeat split; [exact Hex | exact Hlog | ..]; reflexivity.
  - intros pem Hread Hnone.
    exists (server_of c). eexists. split.
    + apply (startup_ca_read pkg env c pem Hc Hpath Hread).
    + rewrite Hnone. cbn. repeat split.
      * repeat constructor.
      * by rewrite union_empty_r_L.
Qed.

Lemma trusted_ca_unreadable_fatal_empty_warns_witness :
  (∃ wd line,
     main_startup Sample.pkg Sample.env_unreadable initial = Exited 1 wd
     ∧ logged wd = [line]
     ∧ Logrus.level line = Logrus.FatalLevel
     ∧ Logrus.args line
       = [Fmt.VStr "/etc/gangway/ca.pem"; Fmt.VErr "open: permission denied"])
  ∧ (∃ srv wd,
       main_startup Sample.pkg Sample.env_no_certs initial = Continue srv wd
       ∧ logged wd
         = [Logrus.Println [Fmt.VStr "No certs appended, using system certs only"]]
       ∧ Forall (fun line => Logrus.is_fatal line = false) (logged wd)
       ∧ httpClient wd = Some (client_trusting {["system-root"]})).
Proof.
  split.
  - apply (proj1 (trusted_ca_unreadable_fatal_empty_warns
                    Sample.pkg Sample.env_unreadable Sample.config
                    eq_refl ltac:(discriminate))).
    reflexivity.
  - apply (proj2 (trusted_ca_unreadable_fatal_empty_warns
                    Sample.pkg Sample.env_no_certs Sample.config
                    eq_refl ltac:(discriminate)) "not a certificate");
      reflexivity.
Defined.

(** C2. After a start-up that goes through, the client's transport has
    as root CAs the system pool (the empty pool when there is none)
    united with the certificates parsed from the custom CA file, if one
    is configured. *)
Theorem http_client_trusts_system_and_custom_ca
    (pkg : Package) (env : Env) (c : Config)
    (srv : HttpServer.Server) (wd : World) :
  NewConfig pkg (flag_config env) = inl c →
  main_startup pkg env initial = Continue srv wd →
  ∃ client,
    httpClient wd = Some client
    ∧ TLS.RootCAs (HttpServer.TLSClientConfig (HttpServer.Transport_ client))
      = system_or_empty env ∪ custom_CA_certs env c
    ∧ ∀ cert,
        cert ∈ TLS.RootCAs (HttpServer.TLSClientConfig (HttpServer.Transport_ client))
        ↔ (∃ pool, SystemCertPool env = Some pool ∧ cert ∈ pool)
          ∨ (TrustedCAPath c ≠ ""
             ∧ ∃ pem, ReadFile env (TrustedCAPath c) = inl pem
                      ∧ cert ∈ pemCerts env pem).
Proof.
  intros Hc Hrun.
  destruct (startup_inv pkg env srv wd Hrun) as (c' & lg & Hc' & -> & ->).
  assert (c' = c) as -> by congruence.
  eexists. split; [reflexivity|]. split; [reflexivity|].
  intros cert. cbn. rewrite elem_of_union.
  unfold system_or_empty, custom_CA_certs.
  destruct (SystemCertPool env) as [pool|];
    destruct (decide (TrustedCAPath c = "")) as [Hpath|Hpath];
    try destruct (ReadFile env (TrustedCAPath c)) as [pem|err];
    rewrite ?elem_of_list_to_set, ?elem_of_empty;
    (split; [intros [Hin|Hin]|intros [(pool' & Heq & Hin)|(Hne & pem' & Heq & Hin)]]);
    try done; simplify_eq; eauto 6.
Qed.

Lemma http_client_trusts_system_and_custom_ca_witness :
  ∃ client,
    httpClient Sample.world = Some client
    ∧ TLS.RootCAs (HttpServer.TLSClientConfig (HttpServer.Transport_ client))
      = system_or_empty Sample.env ∪ custom_CA_certs Sample.env Sample.config
    ∧ ∀ cert,
        cert ∈ TLS.RootCAs (HttpServer.TLSClientConfig (HttpServer.Transport_ client))
        ↔ (∃ pool, SystemCertPool Sample.env = Some pool ∧ cert ∈ pool)
          ∨ (TrustedCAPath Sample.config ≠ ""
             ∧ ∃ pem, ReadFile Sample.env (TrustedCAPath Sample.config) = inl pem
                      ∧ cert ∈ pemCerts Sample.env pem).
Proof.
  apply (http_client_trusts_system_and_custom_ca
           Sample.pkg Sample.env Sample.config (server_of Sample.config) Sample.world).
  - reflexivity.
  - vm_compute. reflexivity.
Defined.

(** ** Routing *)

(** A path in canonical form is rooted. *)
Lemma cleanPath_fixed_rooted (p : string) :
  Http.cleanPath p = p → ∃ rest, p = String Http.slash rest.
Proof.
  unfold Http.cleanPath, Http.Clean.
  destruct (decide (p = "")) as [->|_]; [discriminate|].
  match goal with |- context [decide (?P ∧ ?Q)] => destruct (decide (P ∧ Q)) end;
    intros <-; cbn; eauto.
Qed.

Lemma pathMatch_root (rest : string) :
  Http.pathMatch "/" (String Http.slash rest) = true.
Proof. destruct rest; reflexivity. Qed.

Lemma pathMatch_exact (pattern path : string) :
  pattern ≠ "" → Http.last_char pattern ≠ Some Http.slash →
  pattern ≠ path → Http.pathMatch pattern path = false.
Proof.
  intros Hne Hlast Hdiff. unfold Http.pathMatch.
  rewrite !decide_False by done. by apply bool_decide_eq_false.
Qed.

(** The loop of [match] keeps an entry that nothing can displace. *)
Lemma longest_keeps (path : string) (e0 : string * Http.HandlerFunc)
    (l : list (string * Http.HandlerFunc)) :
  (∀ e, e ∈ l → e = e0 ∨ Http.pathMatch e.1 path = false) →
  foldl (Http.longest path) (Some (e0.2, e0.1)) l = Some (e0.2, e0.1).
Proof.
  induction l as [|e l IH]; intros Hall; [reflexivity|].
  cbn [foldl].
  assert (Http.longest path (Some (e0.2, e0.1)) e = Some (e0.2, e0.1)) as ->.
  { unfold Http.longest.
    destruct (Hall e) as [-> | ->]; [left| |reflexivity].
    destruct (Http.pathMatch e0.1 path); [|reflexivity].
    rewrite decide_False by lia. reflexivity. }
  apply IH. intros e' He'. apply Hall. by right.
Qed.

(** When one entry only matches the path, the loop finds it. *)
Lemma longest_finds (path : string) (e0 : string * Http.HandlerFunc)
    (l : list (string * Http.HandlerFunc)) :
  Http.pathMatch e0.1 path = true →
  e0 ∈ l →
  (∀ e, e ∈ l → e = e0 ∨ Http.pathMatch e.1 path = false) →
  foldl (Http.longest path) None l = Some (e0.2, e0.1).
Proof.
  intros Hmatch. induction l as [|e l IH]; intros Hin Hall.
  - by apply elem_of_nil in Hin.
  - cbn [foldl]. destruct (Hall e) as [->|Hno]; [left| |].
    + unfold Http.longest at 2. rewrite Hmatch.
      apply longest_keeps. intros e' He'. apply Hall. by right.
    + unfold Http.longest at 2. rewrite Hno.
      apply IH.
      * apply elem_of_cons in Hin as [->|Hin]; [congruence|done].
      * intros e' He'. apply Hall. by right.
Qed.

(** Every rooted path other than the four exact routes is matched by
    the root pattern, whose handler is the logged home handler. *)
Lemma routes_match_root (pkg : Package) (rest : string) :
  let p := String Http.slash rest in
  p ≠ "/login" → p ≠ "/callback" → p ≠ "/logout" → p ≠ "/commandline" →
  Http.match_ (routes pkg) p = Some (httpLogger (homeHandler pkg), "/").
Proof.
  intros p Hlogin Hcallback Hlogout Hcmd. unfold Http.match_.
  destruct (decide (p = "/")) as [Hroot|Hroot].
  { rewrite Hroot. reflexivity. }
  assert (routes pkg !! p = None) as -> by (unfold routes; by simplify_map_eq).
  apply (longest_finds p ("/", httpLogger (homeHandler pkg))).
  - apply pathMatch_root.
  - apply elem_of_map_to_list. reflexivity.
  - intros [k h] Hin. apply elem_of_map_to_list in Hin. unfold routes in Hin.
    repeat (apply lookup_insert_Some in Hin as [[<- <-]|[_ Hin]];
            [right; by apply pathMatch_exact|]).
    apply lookup_insert_Some in Hin as [[<- <-]|[_ Hin]]; [by left|].
    by rewrite lookup_empty in Hin.
Qed.

(** The four exact routes are found under their own pattern. *)
Lemma routes_match_exact (pkg : Package) (p : string) (h : Http.HandlerFunc) :
  routes pkg !! p = Some h → Http.match_ (routes pkg) p = Some (h, p).
Proof. intros Hp. unfold Http.match_. by rewrite Hp. Qed.

Lemma append_empty_r (s : string) : s +:+ "" = s.
Proof. induction s as [|a s IH]; [reflexivity|]. change (String a (s +:+ "") = String a s). by rewrite IH. Qed.

(** A request whose path is in canonical form is looked up as it is. *)
Lemma Handler_canonical (mux : Http.ServeMux) (r : Http.Request) (u : Url) :
  Http.cleanPath (Path u) = Path u →
  Http.Handler mux r u = Http.handler mux (Http.Host r) (Path u).
Proof.
  intros Hclean. unfold Http.Handler. rewrite Hclean.
  destruct (decide (Http.Method r ≠ "CONNECT")); [|reflexivity].
  by rewrite decide_False by (intros Hne; by apply Hne).
Qed.

Lemma canonical_not_star (p : string) : Http.cleanPath p = p → p ≠ "*".
Proof. intros Hclean ->. discriminate. Qed.

Lemma ServeHTTP_canonical (mux : Http.ServeMux) (r : Http.Request) (x : Http.Exchange) :
  Http.cleanPath (Path (Http.URL x)) = Path (Http.URL x) →
  Http.ServeHTTP mux r x
  = (Http.handler mux (Http.Host r) (Path (Http.URL x))).1 r x.
Proof.
  intros Hclean. unfold Http.ServeHTTP.
  rewrite decide_False by (by apply canonical_not_star).
  by rewrite Handler_canonical.
Qed.

(** Dispatch to one of the registered patterns, taken as it is. *)
Lemma dispatch_exact (pkg : Package) (r : Http.Request) (x : Http.Exchange)
    (h : Http.HandlerFunc) :
  Http.cleanPath (Path (Http.URL x)) = Path (Http.URL x) →
  routes pkg !! Path (Http.URL x) = Some h →
  Http.ServeHTTP (routes pkg) r x = h r x.
Proof.
  intros Hclean Hroute. rewrite ServeHTTP_canonical by done.
  unfold Http.handler. by rewrite (routes_match_exact pkg _ h Hroute).
Qed.

(** Dispatch of every other canonical path. *)
Lemma dispatch_root (pkg : Package) (r : Http.Request) (u : Url) :
  Http.cleanPath (Path u) = Path u →
  Path u ∉ ["/login"; "/callback"; "/logout"; "/commandline"] →
  Http.handler (routes pkg) (Http.Host r) (Path u)
  = (httpLogger (homeHandler pkg), "/").
Proof.
  intros Hclean Hother.
  destruct (cleanPath_fixed_rooted _ Hclean) as [rest Hrest].
  unfold Http.handler. rewrite Hrest in *.
  rewrite routes_match_root; [reflexivity|..];
    intros Heq; apply Hother; rewrite Heq; set_solver.
Qed.

Lemma httpLogger_unfold (fn : Http.HandlerFunc) (r : Http.Request) (x : Http.Exchange) :
  httpLogger fn r x = (Http.log (access_line r (fn r x).1) (fn r x).1, (fn r x).2).
Proof. unfold httpLogger. by destruct (fn r x). Qed.

Lemma access_line_shown (r : Http.Request) (x' : Http.Exchange) :
  Fmt.Sprintf "%s %s %s" (Logrus.args (access_line r x'))
  = Some (Http.Method r +:+ " " +:+ url_String (Http.URL x') +:+ " "
          +:+ Http.RemoteAddr r).
Proof. cbn. by rewrite append_empty_r. Qed.

(** After a start-up that goes through, the default mux holds [routes]. *)
Lemma startup_routes (pkg : Package) (env : Env) (srv : HttpServer.Server) (wd : World) :
  main_startup pkg env initial = Continue srv wd →
  DefaultServeMux wd = routes pkg.
Proof.
  intros Hrun. by destruct (startup_inv pkg env srv wd Hrun) as (c & lg & _ & _ & ->).
Qed.

(** C4. A request to /logout or to /commandline goes through the access
    middleware first: without a session the answer is the 302 redirect
    to /login, a function of the exchange alone, with no part of the
    wrapped handler in it (status 302, Location /login, nothing added
    to the log); with a session the wrapped handler runs unchanged. The
    routes /, /login and /callback run their handler under the logging
    wrapper whatever the session is. *)
Theorem gated_routes_redirect_without_session
    (pkg : Package) (env : Env) (srv : HttpServer.Server) (wd : World)
    (r : Http.Request) (x : Http.Exchange) :
  main_startup pkg env initial = Continue srv wd →
  (∀ p h,
     (p, h) ∈ [("/logout", logoutHandler pkg); ("/commandline", commandlineHandler pkg)] →
     Path (Http.URL x) = p →
     Http.ServeHTTP (DefaultServeMux wd) r x
     = (if IsAuthenticated pkg r then h r x
        else Http.Redirect "/login" Http.StatusFound r x)
     ∧ (IsAuthenticated pkg r = false →
        let answer := (Http.ServeHTTP (DefaultServeMux wd) r x).1 in
        Http.Status (Http.w answer) = 302
        ∧ Http.Header (Http.w answer) !! "Location" = Some "/login"
        ∧ Http.stdlog answer = Http.stdlog x))
  ∧ (∀ p h,
       (p, h) ∈ [("/", homeHandler pkg); ("/login", loginHandler pkg);
                 ("/callback", callbackHandler pkg)] →
       Path (Http.URL x) = p →
       Http.ServeHTTP (DefaultServeMux wd) r x = httpLogger h r x).
Proof.
  intros Hrun. rewrite (startup_routes pkg env srv wd Hrun).
  split; intros p h Hin Hp.
  - assert (Http.ServeHTTP (routes pkg) r x = loginRequired pkg h r x) as Hserve.
    { apply dispatch_exact; rewrite Hp;
        repeat (apply elem_of_cons in Hin as [[= -> ->]|Hin]; [reflexivity|]);
        by apply elem_of_nil in Hin. }
    rewrite Hserve. unfold loginRequired. split; [reflexivity|].
    intros ->. cbn. by rewrite lookup_insert_eq.
  - apply dispatch_exact; rewrite Hp;
      repeat (apply elem_of_cons in Hin as [[= -> ->]|Hin]; [reflexivity|]);
      by apply elem_of_nil in Hin.
Qed.

Lemma gated_routes_redirect_without_session_witness :
  let r := (Sample.get "/commandline" "").1 in
  let x := Sample.fresh (Sample.get "/commandline" "").2 in
  let answer := (Http.ServeHTTP (DefaultServeMux Sample.world) r x).1 in
  IsAuthenticated Sample.pkg r = false
  ∧ Http.Status (Http.w answer) = 302
  ∧ Http.Header (Http.w answer) !! "Location" = Some "/login"
  ∧ Http.stdlog answer = [].
Proof.
  split; [reflexivity|].
  apply (proj1 (gated_routes_redirect_without_session
                  Sample.pkg Sample.env (server_of Sample.config) Sample.world
                  (Sample.get "/commandline" "").1
                  (Sample.fresh (Sample.get "/commandline" "").2)
                  ltac:(vm_compute; reflexivity))
               "/commandline" (commandlineHandler Sample.pkg)).
  - apply elem_of_cons; right. apply elem_of_cons; by left.
  - reflexivity.
  - reflexivity.
Defined.

(** C9. On the routes /, /login and /callback the handler runs under
    [httpLogger]: once the handler has run (returned or panicked), the
    wrapper adds exactly one line to what the handler left in the log;
    the line holds the request's method, its URL (the URL object as it
    stands at that time) and its remote address, and reads
    "method url remote". *)
Theorem logged_routes_write_one_access_line
    (pkg : Package) (env : Env) (srv : HttpServer.Server) (wd : World)
    (r : Http.Request) (x : Http.Exchange) :
  main_startup pkg env initial = Continue srv wd →
  ∀ p h,
    (p, h) ∈ [("/", homeHandler pkg); ("/login", loginHandler pkg);
              ("/callback", callbackHandler pkg)] →
    Path (Http.URL x) = p →
    let handled := h r x in
    let served := Http.ServeHTTP (DefaultServeMux wd) r x in
    served = httpLogger h r x
    ∧ served.2 = handled.2
    ∧ Http.w served.1 = Http.w handled.1
    ∧ Http.stdlog served.1 = (Http.stdlog handled.1 ++ [access_line r handled.1])%list
    ∧ Logrus.args (access_line r handled.1)
      = [Fmt.VStr (Http.Method r); Fmt.VURL (Http.URL handled.1);
         Fmt.VStr (Http.RemoteAddr r)]
    ∧ Fmt.Sprintf "%s %s %s" (Logrus.args (access_line r handled.1))
      = Some (Http.Method r +:+ " " +:+ url_String (Http.URL handled.1) +:+ " "
              +:+ Http.RemoteAddr r).
Proof.
  intros Hrun p h Hin Hp handled served.
  assert (served = httpLogger h r x) as Hserved.
  { subst served. rewrite (startup_routes pkg env srv wd Hrun).
    apply dispatch_exact; rewrite Hp;
      repeat (apply elem_of_cons in Hin as [[= -> ->]|Hin]; [reflexivity|]);
      by apply elem_of_nil in Hin. }
  split; [exact Hserved|].
  rewrite Hserved, httpLogger_unfold. fold handled.
  repeat split. apply access_line_shown.
Qed.

Lemma logged_routes_write_one_access_line_witness :
  let r := (Sample.get "/login" "").1 in
  let x := Sample.fresh (Sample.get "/login" "").2 in
  let served := Http.ServeHTTP (DefaultServeMux Sample.world) r x in
  Http.stdlog served.1
  = [Logrus.Printf "rendered %s" [Fmt.VStr "login"];
     Logrus.Printf "%s %s %s"
       [Fmt.VStr "GET"; Fmt.VURL {| Path := "/login"; RawQuery := "" |};
        Fmt.VStr "10.0.0.7:51234"]]
  ∧ Fmt.Sprintf "%s %s %s"
      [Fmt.VStr "GET"; Fmt.VURL {| Path := "/login"; RawQuery := "" |};
       Fmt.VStr "10.0.0.7:51234"]
    = Some "GET /login 10.0.0.7:51234".
Proof.
  pose proof (logged_routes_write_one_access_line
                Sample.pkg Sample.env (server_of Sample.config) Sample.world
                (Sample.get "/login" "").1 (Sample.fresh (Sample.get "/login" "").2)
                ltac:(vm_compute; reflexivity)
                "/login" (loginHandler Sample.pkg)
                ltac:(apply elem_of_cons; right; apply elem_of_cons; by left)
                eq_refl) as (_ & _ & _ & Hlog & _ & Hshown).
  split; [exact Hlog|exact Hshown].
Defined.

(** C10, as the code has it. A request whose path is in canonical form
    (it equals its cleaned path: rooted, no empty, [.] or [..] element)
    and is none of /login, /callback, /logout, /commandline is
    dispatched to the home handler under the pattern [/], not to the
    not-found handler. A request other than CONNECT whose path is not in
    canonical form is answered by the mux itself, with a permanent
    redirect to the cleaned path. *)
Theorem canonical_unrouted_paths_reach_home
    (pkg : Package) (env : Env) (srv : HttpServer.Server) (wd : World)
    (r : Http.Request) (x : Http.Exchange) :
  main_startup pkg env initial = Continue srv wd →
  let p := Path (Http.URL x) in
  (Http.cleanPath p = p →
   p ∉ ["/login"; "/callback"; "/logout"; "/commandline"] →
   Http.Handler (DefaultServeMux wd) r (Http.URL x)
   = (httpLogger (homeHandler pkg), "/")
   ∧ Http.ServeHTTP (DefaultServeMux wd) r x = httpLogger (homeHandler pkg) r x)
  ∧ (Http.cleanPath p ≠ p →
     Http.Method r ≠ "CONNECT" →
     p ≠ "*" →
     Http.ServeHTTP (DefaultServeMux wd) r x
     = Http.Redirect
         (url_String {| Path := Http.cleanPath p; RawQuery := RawQuery (Http.URL x) |})
         Http.StatusMovedPermanently r x).
Proof.
  intros Hrun p. rewrite (startup_routes pkg env srv wd Hrun). split.
  - intros Hclean Hother.
    rewrite ServeHTTP_canonical, Handler_canonical by done.
    by rewrite dispatch_root.
  - intros Hdirty Hmethod Hstar. unfold Http.ServeHTTP, Http.Handler.
    rewrite decide_False by done.
    rewrite decide_True by done.
    by rewrite decide_True by done.
Qed.

Lemma canonical_unrouted_paths_reach_home_witness :
  let r := (Sample.get "/unknown" "").1 in
  let x := Sample.fresh (Sample.get "/unknown" "").2 in
  Http.Handler (DefaultServeMux Sample.world) r (Http.URL x)
  = (httpLogger (homeHandler Sample.pkg), "/")
  ∧ Http.ServeHTTP (DefaultServeMux Sample.world) r x
    = httpLogger (homeHandler Sample.pkg) r x.
Proof.
  apply (proj1 (canonical_unrouted_paths_reach_home
                  Sample.pkg Sample.env (server_of Sample.config) Sample.world
                  (Sample.get "/unknown" "").1
                  (Sample.fresh (Sample.get "/unknown" "").2)
                  ltac:(vm_compute; reflexivity))).
  - reflexivity.
  - cbn. rewrite !not_elem_of_cons. repeat split; try discriminate.
    apply not_elem_of_nil.
Defined.

(** C10, as the claim has it, fails: the path //unknown is none of the
    four exact routes, yet a GET for it is not dispatched to the home
    handler: the mux answers 301 with Location /unknown and the home
    handler (which would answer 200 and write its access line) does not
    run. *)
Lemma double_slash_path_is_redirected_not_served :
  let r := (Sample.get "//unknown" "").1 in
  let x := Sample.fresh (Sample.get "//unknown" "").2 in
  let served := (Http.ServeHTTP (DefaultServeMux Sample.world) r x).1 in
  let home := (httpLogger (homeHandler Sample.pkg) r x).1 in
  (Path (Http.URL x) ∉ ["/login"; "/callback"; "/logout"; "/commandline"])
  ∧ Http.Status (Http.w served) = 301
  ∧ Http.Header (Http.w served) !! "Location" = Some "/unknown"
  ∧ Http.stdlog served = []
  ∧ Http.Status (Http.w home) = 200
  ∧ Http.Body (Http.w home) = "home"
  ∧ Http.stdlog home
    = [Logrus.Printf "rendered %s" [Fmt.VStr "home"];
       Logrus.Printf "%s %s %s"
         [Fmt.VStr "GET"; Fmt.VURL {| Path := "//unknown"; RawQuery := "" |};
          Fmt.VStr "10.0.0.7:51234"]].
Proof.
  cbn zeta. split.
  - cbn. rewrite !not_elem_of_cons. repeat split; try discriminate.
    apply not_elem_of_nil.
  - vm_compute. repeat split.
Qed.

(** ** The running process *)

Lemma boot_Inv (srv : HttpServer.Server) (wd : World) : Inv srv wd (boot wd srv).
Proof.
  split; cbn; try done; try lia.
  intros tls c [?|?]; done.
Qed.

Ltac open_step H :=
  unfold exec, step_main, step_serve, step_listen, step_accept, step_finish,
    step_signal, step_tick, Shutdown_begin, Shutdown_wait in H;
  cbn in H; repeat case_match; simplify_eq.

(** Every step keeps the invariant. *)
Lemma exec_Inv (srv : HttpServer.Server) (wd0 : World) (l : Label) (s s' : Sys) :
  Inv srv wd0 s → exec l s = Some s' → Inv srv wd0 s'.
Proof.
  destruct s as [w srv' mpc spc lst sh act ans ch ntf nw st].
  intros [Hsrv Hcfg Ho Hs Hc Hm Hgo Hch Hnt Hsh Hctx Hl Hsv Hcall] Hstep.
  cbn in *. open_step Hstep.
  all: split; cbn in *; try done; try lia; try congruence.
  all: try (intuition (simplify_eq; eauto; try lia); fail).
  all: try (intros _; apply Hch; lia).
  all: try (intros a Ha; destruct (Hl a Ha) as (tls' & ? & ? & ?); simplify_eq; fail).
  all: try (intros a Ha; destruct (Hl a Ha) as (tls' & -> & ? & ?);
            destruct Hgo as [_ Hgo]; discriminate (Hgo eq_refl)).
  all: intros tls' c' [?|?] Hc'; simplify_eq; unfold serve_call.
  all: rewrite Hc' in Hcfg; injection Hcfg as ->.
  all: by match goal with H : ServeTLS _ = _ |- _ => rewrite H end.
Qed.

Lemma run_Inv (srv : HttpServer.Server) (wd0 : World) (ls : list Label) (s s' : Sys) :
  Inv srv wd0 s → run ls s = Some s' → Inv srv wd0 s'.
Proof.
  revert s. induction ls as [|l ls IH]; intros s Hinv Hrun; cbn in Hrun.
  - by simplify_eq.
  - destruct (exec l s) as [s1|] eqn:Hstep; [|done].
    eauto using exec_Inv.
Qed.

Lemma reaches_Inv (srv : HttpServer.Server) (wd : World) (s : Sys) :
  reaches (boot wd srv) s → Inv srv wd s.
Proof. intros [ls Hrun]. eauto using run_Inv, boot_Inv. Qed.

Lemma run_app (ls1 ls2 : list Label) (s : Sys) :
  run (ls1 ++ ls2) s = match run ls1 s with
                       | Some s1 => run ls2 s1
                       | None => None
                       end.
Proof.
  revert s. induction ls1 as [|l ls1 IH]; intros s; cbn; [done|].
  destruct (exec l s); [apply IH|done].
Qed.

Lemma reaches_run (s0 s s' : Sys) (ls : list Label) :
  reaches s0 s → run ls s = Some s' → reaches s0 s'.
Proof.
  intros [ls0 Hrun0] Hrun. exists (ls0 ++ ls)%list. by rewrite run_app, Hrun0.
Qed.

Lemma reaches_exec (s0 s s' : Sys) (l : Label) :
  reaches s0 s → exec l s = Some s' → reaches s0 s'.
Proof.
  intros Hreach Hstep. apply (reaches_run s0 s s' [l] Hreach). cbn. by rewrite Hstep.
Qed.

(** C7. The package variable [oauth2Cfg] is nil when [main] starts; the
    start-up sets it to the descriptor built from the configuration
    (client id, client secret, redirect URL and scopes copied, the
    authorize URL as auth endpoint, the token URL as token endpoint);
    in every state the process reaches afterwards it holds that same
    value. *)
Theorem oauth2_descriptor_set_at_startup_then_fixed
    (pkg : Package) (env : Env) (c : Config)
    (srv : HttpServer.Server) (wd : World) :
  NewConfig pkg (flag_config env) = inl c →
  main_startup pkg env initial = Continue srv wd →
  oauth2Cfg initial = None
  ∧ oauth2Cfg wd
    = Some {| OAuth2.ClientID := ClientID c;
              OAuth2.ClientSecret := ClientSecret c;
              OAuth2.RedirectURL := RedirectURL c;
              OAuth2.Scopes := Scopes c;
              OAuth2.Endpoint_ := {| OAuth2.AuthURL := AuthorizeURL c;
                                     OAuth2.TokenURL := TokenURL c |} |}
  ∧ ∀ s, reaches (boot wd srv) s → oauth2Cfg (world s) = oauth2Cfg wd.
Proof.
  intros Hc Hrun.
  destruct (startup_inv pkg env srv wd Hrun) as (c' & lg & Hc' & -> & ->).
  assert (c' = c) as -> by congruence.
  split; [reflexivity|]. split; [reflexivity|].
  intros s Hreach. apply (inv_oauth2Cfg _ _ _ (reaches_Inv _ _ _ Hreach)).
Qed.

Lemma oauth2_descriptor_set_at_startup_then_fixed_witness :
  oauth2Cfg initial = None
  ∧ oauth2Cfg Sample.world
    = Some {| OAuth2.ClientID := "gangway";
              OAuth2.ClientSecret := "s3cret";
              OAuth2.RedirectURL := "https://gangway.example/callback";
              OAuth2.Scopes := ["openid"; "profile"];
              OAuth2.Endpoint_ := {| OAuth2.AuthURL := "https://idp/auth";
                                     OAuth2.TokenURL := "https://idp/token" |} |}
  ∧ ∀ s, reaches Sample.process s → oauth2Cfg (world s) = oauth2Cfg Sample.world.
Proof.
  apply (oauth2_descriptor_set_at_startup_then_fixed
           Sample.pkg Sample.env Sample.config (server_of Sample.config) Sample.world).
  - reflexivity.
  - vm_compute. reflexivity.
Defined.

Lemma append_nonempty (s t : string) (a : ascii) : s +:+ String a t ≠ "".
Proof. by destruct s. Qed.

Lemma bindAddr_of_shown (c : Config) :
  bindAddr_of c = Host c +:+ ":" +:+ Fmt.itoa (Port c).
Proof. unfold bindAddr_of. cbn. by rewrite append_empty_r. Qed.

Lemma addr_for_server_of (tls : option (string * string)) (c : Config) :
  addr_for tls (server_of c) = bindAddr_of c.
Proof.
  unfold addr_for, HttpServer.listen_addr, HttpServer.listen_addr_tls.
  cbn [server_of HttpServer.Addr]. rewrite bindAddr_of_shown.
  destruct tls; by rewrite decide_False by apply append_nonempty.
Qed.

(** Both threads under way: the goroutine has bound the listener and
    serves, [main] waits for a signal. *)
Lemma run_to_serving (wd : World) (srv : HttpServer.Server) (c : Config) :
  cfg wd = Some c →
  ∃ s, run [Main; Serve; Listen None; Main; Main] (boot wd srv) = Some s
       ∧ status s = None
       ∧ mainpc s = AtReceive
       ∧ servepc s = Serving (serve_call c)
       ∧ listener s = Some (addr_for (serve_call c) srv)
       ∧ signalChan s = Some []
       ∧ active s = [].
Proof.
  intros Hcfg. unfold serve_call. cbn. rewrite Hcfg.
  destruct (ServeTLS c); cbn; eexists; repeat split.
Qed.

(** C5. The server [main] builds has a read timeout and a write timeout
    of ten seconds each (10 000 000 000 ns) and the address
    "host:port" made of [Config.Host] and [Config.Port] in decimal;
    whenever the process has a listener it is bound to that address,
    and the serve goroutine does get to bind it. *)
Theorem server_has_ten_second_timeouts_and_binds_host_port
    (pkg : Package) (env : Env) (c : Config)
    (srv : HttpServer.Server) (wd : World) :
  NewConfig pkg (flag_config env) = inl c →
  main_startup pkg env initial = Continue srv wd →
  HttpServer.ReadTimeout srv = 10 * HttpServer.Second
  ∧ HttpServer.WriteTimeout srv = 10 * HttpServer.Second
  ∧ 10 * HttpServer.Second = 10000000000 * HttpServer.Nanosecond
  ∧ HttpServer.Addr srv = Host c +:+ ":" +:+ Fmt.itoa (Port c)
  ∧ (∀ s a, reaches (boot wd srv) s →
       httpServer s = srv ∧ (listener s = Some a → a = HttpServer.Addr srv))
  ∧ ∃ s, reaches (boot wd srv) s ∧ status s = None
         ∧ listener s = Some (HttpServer.Addr srv).
Proof.
  intros Hc Hrun.
  destruct (startup_inv pkg env srv wd Hrun) as (c' & lg & Hc' & -> & ->).
  assert (c' = c) as -> by congruence.
  repeat split; try reflexivity.
  - apply bindAddr_of_shown.
  - apply (inv_server _ _ _ (reaches_Inv _ _ _ H)).
  - intros Hl.
    destruct (inv_listener _ _ _ (reaches_Inv _ _ _ H) a Hl) as (tls & _ & -> & _).
    apply addr_for_server_of.
  - destruct (run_to_serving
                (started pkg c (system_or_empty env ∪ custom_CA_certs env c) lg)
                (server_of c) c eq_refl)
      as (s & Hrun' & Hstatus & _ & _ & Hl & _).
    exists s. split; [by eexists|]. split; [done|].
    by rewrite Hl, addr_for_server_of.
Qed.

Lemma server_has_ten_second_timeouts_and_binds_host_port_witness :
  HttpServer.ReadTimeout (server_of Sample.config) = 10 * HttpServer.Second
  ∧ HttpServer.WriteTimeout (server_of Sample.config) = 10 * HttpServer.Second
  ∧ 10 * HttpServer.Second = 10000000000 * HttpServer.Nanosecond
  ∧ HttpServer.Addr (server_of Sample.config) = "0.0.0.0" +:+ ":" +:+ Fmt.itoa 8080
  ∧ (∀ s a, reaches Sample.process s →
       httpServer s = server_of Sample.config
       ∧ (listener s = Some a → a = HttpServer.Addr (server_of Sample.config)))
  ∧ ∃ s, reaches Sample.process s ∧ status s = None
         ∧ listener s = Some (HttpServer.Addr (server_of Sample.config)).
Proof.
  apply (server_has_ten_second_timeouts_and_binds_host_port
           Sample.pkg Sample.env Sample.config (server_of Sample.config) Sample.world).
  - reflexivity.
  - vm_compute. reflexivity.
Defined.

(** *** Facts about single steps *)

Lemma exec_ended (l : Label) (s : Sys) (e : ExitStatus) :
  status s = Some e → exec l s = None.
Proof. intros Hst. unfold exec. by rewrite Hst. Qed.




(** An error returned by the serve call stays where it is until the
    goroutine takes its next step. *)
Lemma exec_keeps_returned (srv : HttpServer.Server) (wd0 : World)
    (l : Label) (s s' : Sys) (err : error) :
  Inv srv wd0 s → servepc s = ServeReturned err → is_Serve l = false →
  exec l s = Some s' → servepc s' = ServeReturned err.
Proof.
  destruct s as [w srv' mpc spc lst sh act ans ch ntf nw st].
  intros [_ _ _ _ _ _ Hgo _ _ _ _ _ _ _] Hpc Hl Hstep. cbn in *.
  open_step Hstep; try done.
  destruct Hgo as [_ Hgo]. discriminate (Hgo eq_refl).
Qed.

Lemma run_keeps_returned (srv : HttpServer.Server) (wd0 : World)
    (ls : list Label) (s s' : Sys) (err : error) :
  Inv srv wd0 s → servepc s = ServeReturned err →
  Forall (fun l => is_Serve l = false) ls →
  run ls s = Some s' → servepc s' = ServeReturned err.
Proof.
  revert s. induction ls as [|l ls IH]; intros s Hinv Hpc Hls Hrun; cbn in Hrun.
  - by simplify_eq.
  - destruct (exec l s) as [s1|] eqn:Hstep; [|done].
    apply Forall_cons in Hls as [Hl Hls].
    eauto using exec_Inv, exec_keeps_returned.
Qed.

(** [log.Fatal(err)]: the line is written and the process ends with
    exit code 1. *)
Lemma fatal_step (s : Sys) (err : error) :
  status s = None → servepc s = ServeReturned err →
  ∃ s', exec Serve s = Some s'
        ∧ status s' = Some (ExitCode 1)
        ∧ logged (world s') = (logged (world s) ++ [Logrus.Fatal [Fmt.VErr err]])%list.
Proof.
  intros Hst Hpc. unfold exec, step_serve. rewrite Hst, Hpc.
  eexists. repeat split.
Qed.

(** While its channel is empty [main] stays at the receive. *)
Lemma exec_keeps_receiving (l : Label) (s s' : Sys) :
  mainpc s = AtReceive → signalChan s = Some [] → is_Deliver l = false →
  exec l s = Some s' → mainpc s' = AtReceive ∧ signalChan s' = Some [].
Proof.
  destruct s as [w srv' mpc spc lst sh act ans ch ntf nw st].
  intros Hpc Hch Hl Hstep. cbn in *. by open_step Hstep.
Qed.

Lemma run_keeps_receiving (ls : list Label) (s s' : Sys) :
  mainpc s = AtReceive → signalChan s = Some [] →
  Forall (fun l => is_Deliver l = false) ls →
  run ls s = Some s' → mainpc s' = AtReceive ∧ signalChan s' = Some [].
Proof.
  revert s. induction ls as [|l ls IH]; intros s Hpc Hch Hls Hrun; cbn in Hrun.
  - by simplify_eq.
  - destruct (exec l s) as [s1|] eqn:Hstep; [|done].
    apply Forall_cons in Hls as [Hl Hls].
    destruct (exec_keeps_receiving l s s1 Hpc Hch Hl Hstep). eauto.
Qed.




(** By contrast, a context with a deadline makes [Shutdown] return at
    the deadline and leave the active requests behind. *)
Lemma deadline_would_end_the_wait (s : Sys) (d : nat) :
  status s = None → mainpc s = InShutdown (Context.WithDeadline d) →
  (d ≤ now s)%nat →
  exec Main s = Some (with_main AtReturn s).
Proof.
  intros Hst Hpc Hd. unfold exec, step_main, Shutdown_wait, Context.Done.
  rewrite Hst, Hpc. cbn. rewrite bool_decide_eq_true_2 by done.
  by destruct (active s).
Qed.


(** ** Failures at start-up and at binding *)

(** C6. If the configuration cannot be loaded, the start-up writes one
    diagnostic line at error level and ends the process with exit code
    1. If binding the listener fails, the serve call returns the error;
    whatever the other threads do meanwhile, the process is still alive
    only with that error pending, the goroutine's next step is
    [log.Fatal]: the error is written at fatal level, the process ends
    with exit code 1, and no step follows (no retry). *)
Theorem config_and_bind_failures_end_the_process (pkg : Package) (env : Env) :
  (∀ err, NewConfig pkg (flag_config env) = inr err →
     ∃ wd line,
       main_startup pkg env initial = Exited 1 wd
       ∧ logged wd = [line]
       ∧ line = Logrus.Errorf "Could not parse config file: %s" [Fmt.VErr err]
       ∧ Logrus.level line = Logrus.ErrorLevel)
  ∧ (∀ srv wd s tls err,
       main_startup pkg env initial = Continue srv wd →
       reaches (boot wd srv) s →
       status s = None →
       servepc s = Listening tls →
       inShutdown s = false →
       ∃ s1,
         exec (Listen (Some err)) s = Some s1
         ∧ servepc s1 = ServeReturned err
         ∧ listener s1 = None
         ∧ ∀ ls s2,
             Forall (fun l => is_Serve l = false) ls →
             run ls s1 = Some s2 →
             status s2 = None →
             servepc s2 = ServeReturned err
             ∧ ∃ s3,
                 exec Serve s2 = Some s3
                 ∧ status s3 = Some (ExitCode 1)
                 ∧ logged (world s3)
                   = (logged (world s2) ++ [Logrus.Fatal [Fmt.VErr err]])%list
                 ∧ Logrus.level (Logrus.Fatal [Fmt.VErr err]) = Logrus.FatalLevel
                 ∧ ∀ l, exec l s3 = None).
Proof.
  split.
  - intros err Herr.
    destruct (startup_config_error pkg env err Herr) as (wd & Hex & Hlog).
    exists wd. eexists. by repeat split.
  - intros srv wd s tls err Hrun Hreach Hst Hpc Hsh.
    assert (exec (Listen (Some err)) s = Some (with_serve (ServeReturned err) s))
      as Hstep.
    { unfold exec, step_listen. by rewrite Hst, Hpc, Hsh. }
    exists (with_serve (ServeReturned err) s).
    pose proof (reaches_Inv _ _ _ Hreach) as Hinv.
    split; [exact Hstep|]. split; [reflexivity|]. split.
    { cbn. destruct (listener s) as [a|] eqn:Hl; [|done].
      destruct (inv_listener _ _ _ Hinv a Hl) as (tls' & Hpc' & _). congruence. }
    intros ls s2 Hls Hrun2 Hst2.
    assert (servepc s2 = ServeReturned err) as Hpc2.
    { apply (run_keeps_returned srv wd ls (with_serve (ServeReturned err) s) s2 err);
        [|reflexivity|exact Hls|exact Hrun2].
      apply (exec_Inv srv wd (Listen (Some err)) s _ Hinv Hstep). }
    split; [exact Hpc2|].
    destruct (fatal_step s2 err Hst2 Hpc2) as (s3 & Hstep3 & Hst3 & Hlog3).
    exists s3. repeat split; try done.
    intros l. by apply (exec_ended l s3 (ExitCode 1)).
Qed.

Lemma config_and_bind_failures_end_the_process_witness :
  (∃ wd line,
     main_startup Sample.pkg Sample.env_no_config initial = Exited 1 wd
     ∧ logged wd = [line]
     ∧ line = Logrus.Errorf "Could not parse config file: %s"
                [Fmt.VErr "open: no such file or directory"]
     ∧ Logrus.level line = Logrus.ErrorLevel)
  ∧ ∃ s s1 s2 s3,
      run [Main; Serve] Sample.process = Some s
      ∧ exec (Listen (Some "listen tcp 0.0.0.0:8080: bind: address already in use")) s
        = Some s1
      ∧ run [Main; Main; Tick] s1 = Some s2
      ∧ exec Serve s2 = Some s3
      ∧ status s3 = Some (ExitCode 1)
      ∧ logged (world s3)
        = [Logrus.Fatal
             [Fmt.VErr "listen tcp 0.0.0.0:8080: bind: address already in use"]]
      ∧ ∀ l, exec l s3 = None.
Proof.
  split.
  - apply (proj1 (config_and_bind_failures_end_the_process
                    Sample.pkg Sample.env_no_config)).
    reflexivity.
  - destruct (proj2 (config_and_bind_failures_end_the_process Sample.pkg Sample.env)
                (server_of Sample.config) Sample.world
                (with_serve (Listening None)
                   (with_serve AtServe (with_main AtMakeChan Sample.process)))
                None "listen tcp 0.0.0.0:8080: bind: address already in use"
                ltac:(vm_compute; reflexivity)
                ltac:(by exists [Main; Serve])
                eq_refl eq_refl eq_refl)
      as (s1 & Hstep1 & _ & _ & Hrest).
    injection Hstep1 as <-.
    destruct (Hrest [Main; Main; Tick]
                (with_now 1 (with_notified true (with_main AtReceive
                   (with_signalChan (Some []) (with_main AtNotify
                      (with_serve
                         (ServeReturned
                            "listen tcp 0.0.0.0:8080: bind: address already in use")
                         (with_serve (Listening None)
                            (with_serve AtServe
                               (with_main AtMakeChan Sample.process)))))))))
                ltac:(repeat constructor) eq_refl eq_refl)
      as (_ & s3 & Hstep3 & Hst3 & Hlog3 & _ & Hdead).
    eexists _, _, _, s3. repeat split; try done.
Defined.

(** ** Serving beside [main] *)

(** C8. The goroutine calls the TLS variant with [Config.CertFile] and
    [Config.KeyFile] when [Config.ServeTLS] is true, and the plain
    variant when it is false; whichever it is, that is the call that
    serves from then on. The process reaches a state in which the
    goroutine serves while [main] stands at the receive with an empty
    channel; in any such state [main] cannot step, stays there through
    every run in which no signal is delivered, and the serve loop goes
    on: connections are accepted and active requests are handled. *)
Theorem serve_variant_follows_config_and_runs_beside_main
    (pkg : Package) (env : Env) (c : Config)
    (srv : HttpServer.Server) (wd : World) :
  NewConfig pkg (flag_config env) = inl c →
  main_startup pkg env initial = Continue srv wd →
  (∀ s, reaches (boot wd srv) s → status s = None → servepc s = AtServe →
     ∃ s', exec Serve s = Some s'
           ∧ (ServeTLS c = true →
              servepc s' = Listening (Some (CertFile c, KeyFile c)))
           ∧ (ServeTLS c = false → servepc s' = Listening None))
  ∧ (∀ s tls, reaches (boot wd srv) s → servepc s = Serving tls →
       tls = if ServeTLS c then Some (CertFile c, KeyFile c) else None)
  ∧ (∃ s, reaches (boot wd srv) s ∧ status s = None
          ∧ mainpc s = AtReceive ∧ signalChan s = Some []
          ∧ ∃ tls, servepc s = Serving tls)
  ∧ (∀ s tls, reaches (boot wd srv) s → status s = None →
       mainpc s = AtReceive → signalChan s = Some [] → servepc s = Serving tls →
       exec Main s = None
       ∧ (∀ ls s', Forall (fun l => is_Deliver l = false) ls →
            run ls s = Some s' → mainpc s' = AtReceive ∧ exec Main s' = None)
       ∧ (∀ r u, ∃ s', exec (Accept r u) s = Some s'
                       ∧ active s' = (active s ++ [{| request := r; url := u |}])%list
                       ∧ mainpc s' = AtReceive)
       ∧ (∀ i conn, active s !! i = Some conn →
            ∃ s', exec (Finish i) s = Some s'
                  ∧ active s' = delete i (active s)
                  ∧ mainpc s' = AtReceive)).
Proof.
  intros Hc Hrun.
  destruct (startup_inv pkg env srv wd Hrun) as (c' & lg & Hc' & -> & ->).
  assert (c' = c) as -> by congruence.
  set (wd := started pkg c (system_or_empty env ∪ custom_CA_certs env c) lg).
  assert (cfg wd = Some c) as Hcfg by reflexivity.
  split; [|split; [|split]].
  - intros s Hreach Hst Hpc.
    pose proof (inv_cfg _ _ _ (reaches_Inv _ _ _ Hreach)) as Hcfg'.
    unfold exec, step_serve. rewrite Hst, Hpc, Hcfg', Hcfg.
    destruct (ServeTLS c); eexists; repeat split; done.
  - intros s tls Hreach Hpc.
    apply (inv_call _ _ _ (reaches_Inv _ _ _ Hreach) tls c); [by right|done].
  - destruct (run_to_serving wd (server_of c) c Hcfg)
      as (s & Hrun' & Hst & Hmain & Hserve & _ & Hch & _).
    exists s. repeat split; try done; by eexists.
  - intros s tls Hreach Hst Hmain Hch Hserve.
    pose proof (reaches_Inv _ _ _ Hreach) as Hinv.
    assert (exec Main s = None) as Hblocked.
    { unfold exec, step_main. by rewrite Hst, Hmain, Hch. }
    assert (inShutdown s = false) as Hsh.
    { rewrite (inv_inShutdown _ _ _ Hinv), Hmain. reflexivity. }
    split; [exact Hblocked|]. split; [|split].
    + intros ls s' Hls Hrun'.
      destruct (run_keeps_receiving ls s s' Hmain Hch Hls Hrun') as [Hmain' Hch'].
      split; [done|]. unfold exec, step_main. rewrite Hmain', Hch'.
      by destruct (status s').
    + intros r u. unfold exec, step_accept.
      rewrite Hst, Hserve, (inv_serving _ _ _ Hinv tls Hserve Hsh), Hsh.
      eexists. repeat split. exact Hmain.
    + intros i conn Hconn. unfold exec, step_finish. rewrite Hst, Hconn.
      destruct (Http.ServeHTTP _ _ _) as [x done].
      eexists. repeat split. exact Hmain.
Qed.

Lemma serve_variant_follows_config_and_runs_beside_main_witness :
  (∃ s s', run [Main] Sample.process = Some s
           ∧ exec Serve s = Some s' ∧ servepc s' = Listening None)
  ∧ (∃ s s', run [Main] (boot (started Sample.pkg Sample.config_tls ∅ [])
                              (server_of Sample.config_tls)) = Some s
             ∧ exec Serve s = Some s'
             ∧ servepc s'
               = Listening (Some ("/etc/gangway/tls.crt", "/etc/gangway/tls.key")))
  ∧ ∃ s, run Sample.to_serving Sample.process = Some s
         ∧ exec Main s = None
         ∧ ∃ s', exec (Accept (Sample.get "/" "").1 (Sample.get "/" "").2) s = Some s'
                 ∧ length (active s') = 1%nat
                 ∧ mainpc s' = AtReceive.
Proof.
  pose proof (serve_variant_follows_config_and_runs_beside_main
                Sample.pkg Sample.env Sample.config
                (server_of Sample.config) Sample.world
                eq_refl ltac:(vm_compute; reflexivity)) as (Hcall & _ & _ & Hbeside).
  pose proof (serve_variant_follows_config_and_runs_beside_main
                Sample.pkg Sample.env_tls Sample.config_tls
                (server_of Sample.config_tls)
                (started Sample.pkg Sample.config_tls ∅ [])
                eq_refl ltac:(vm_compute; reflexivity)) as (Hcall_tls & _).
  split; [|split].
  - destruct (Hcall (with_serve AtServe (with_main AtMakeChan Sample.process))
                ltac:(by exists [Main]) eq_refl eq_refl) as (s' & Hstep & _ & Hplain).
    eexists _, s'. split; [reflexivity|]. split; [exact Hstep|]. by apply Hplain.
  - destruct (Hcall_tls
                (with_serve AtServe
                   (with_main AtMakeChan
                      (boot (started Sample.pkg Sample.config_tls ∅ [])
                            (server_of Sample.config_tls))))
                ltac:(by exists [Main]) eq_refl eq_refl) as (s' & Hstep & Htls & _).
    eexists _, s'. split; [reflexivity|]. split; [exact Hstep|]. by apply Htls.
  - destruct (run Sample.to_serving Sample.process) as [s|] eqn:Hrun; [|discriminate].
    destruct (Hbeside s None ltac:(by exists Sample.to_serving))
      as (Hblocked & _ & Haccept & _);
      try (vm_compute in Hrun; injection Hrun as <-; reflexivity).
    exists s. split; [reflexivity|]. split; [exact Hblocked|].
    destruct (Haccept (Sample.get "/" "").1 (Sample.get "/" "").2)
      as (s' & Hstep & Hact & Hmain).
    exists s'. split; [exact Hstep|]. split; [|exact Hmain].
    rewrite Hact, length_app. vm_compute in Hrun. injection Hrun as <-. reflexivity.
Defined.

(** ** Shutdown *)




(** * Further properties of [main] and [httpLogger] *)

(** ** The start-up as a whole *)

(** X1. The start-up never panics (the five patterns are distinct and
    not empty). It ends the process in two cases only, a configuration
    that cannot be loaded and a configured CA file that cannot be read:
    always with exit code 1, after exactly one line at error or fatal
    level, with no HTTP client built and no route registered. When it
    goes through it has written at most one line, none of them fatal. *)
Theorem startup_ends_only_on_config_or_ca_failure (pkg : Package) (env : Env) :
  match main_startup pkg env initial with
  | Continue srv wd =>
    ∃ c, NewConfig pkg (flag_config env) = inl c
         ∧ (TrustedCAPath c = "" ∨ ∃ pem, ReadFile env (TrustedCAPath c) = inl pem)
         ∧ (length (logged wd) ≤ 1)%nat
         ∧ Forall (fun line => Logrus.is_fatal line = false) (logged wd)
  | Exited code wd =>
    code = 1
    ∧ (∃ line, logged wd = [line]
               ∧ (Logrus.level line = Logrus.ErrorLevel
                  ∨ Logrus.level line = Logrus.FatalLevel))
    ∧ ((∃ err, NewConfig pkg (flag_config env) = inr err)
       ∨ (∃ c err, NewConfig pkg (flag_config env) = inl c
                   ∧ TrustedCAPath c ≠ ""
                   ∧ ReadFile env (TrustedCAPath c) = inr err))
    ∧ httpClient wd = None
    ∧ DefaultServeMux wd = ∅
  | Panicked _ _ => False
  end.
Proof.
  destruct (NewConfig pkg (flag_config env)) as [c|err] eqn:Hc.
  - destruct (decide (TrustedCAPath c = "")) as [Hpath|Hpath].
    + rewrite (startup_without_ca pkg env c Hc Hpath).
      exists c. repeat split; [by left|cbn; lia|constructor].
    + destruct (ReadFile env (TrustedCAPath c)) as [pem|err] eqn:Hread.
      * rewrite (startup_ca_read pkg env c pem Hc Hpath Hread).
        exists c. split; [done|]. split; [right; by exists pem|].
        destruct (bool_decide (pemCerts env pem ≠ [])); cbn;
          split; try lia; repeat constructor.
      * unfold main_startup. rewrite Hc.
        rewrite decide_True by done. rewrite Hread. cbn.
        repeat split; [eexists; split; [reflexivity|by right]|].
        right. by exists c, err.
  - unfold main_startup. rewrite Hc. cbn.
    repeat split; [eexists; split; [reflexivity|by left]|].
    left. by exists err.
Qed.

(** X2. The start-up reads no file but the one at [TrustedCAPath], and
    that one only when the path is set: two environments with the same
    flag and system pool that agree on that file (and on what it
    parses to) give the same start-up, whatever else they hold. *)
Theorem startup_reads_only_the_configured_ca_file
    (pkg : Package) (env env' : Env) :
  flag_config env = flag_config env' →
  SystemCertPool env = SystemCertPool env' →
  (∀ c, NewConfig pkg (flag_config env) = inl c → TrustedCAPath c ≠ "" →
     ReadFile env (TrustedCAPath c) = ReadFile env' (TrustedCAPath c)
     ∧ ∀ pem, ReadFile env (TrustedCAPath c) = inl pem →
              pemCerts env pem = pemCerts env' pem) →
  main_startup pkg env initial = main_startup pkg env' initial.
Proof.
  intros Hflag Hpool Hfile. unfold main_startup. rewrite <- Hflag, <- Hpool.
  destruct (NewConfig pkg (flag_config env)) as [c|err] eqn:Hc; [|reflexivity].
  destruct (decide (TrustedCAPath c ≠ "")) as [Hpath|Hpath]; [|reflexivity].
  destruct (Hfile c eq_refl Hpath) as [Hread Hpem]. rewrite <- Hread.
  destruct (ReadFile env (TrustedCAPath c)) as [pem|err] eqn:Hpemfile; [|reflexivity].
  unfold X509.AppendCertsFromPEM. by rewrite <- (Hpem pem eq_refl).
Qed.

Lemma startup_reads_only_the_configured_ca_file_witness :
  main_startup Sample.pkg Sample.env initial
  = main_startup Sample.pkg
      {| flag_config := "gangway.yaml";
         SystemCertPool := Some {["system-root"]};
         ReadFile := fun file =>
           if decide (file = "/etc/gangway/ca.pem")
           then inl "-----BEGIN CERTIFICATE-----corp"
           else inl "another file";
         pemCerts := fun pem =>
           if decide (pem = "-----BEGIN CERTIFICATE-----corp") then ["corp-ca"]
           else ["stray"] |}
      initial.
Proof.
  apply startup_reads_only_the_configured_ca_file; [reflexivity..|].
  intros c Hc _. injection Hc as <-. split; [reflexivity|].
  intros pem Hpem. injection Hpem as <-. reflexivity.
Defined.

(** ** Dispatch *)

Lemma cleanPath_rooted (p : string) : ∃ rest, Http.cleanPath p = String Http.slash rest.
Proof.
  unfold Http.cleanPath, Http.Clean.
  destruct (decide (p = "")) as [_|_]; [by exists ""|].
  match goal with |- context [decide (?P ∧ ?Q)] => destruct (decide (P ∧ Q)) end;
    cbn; eauto.
Qed.

(** The handler and pattern found for a rooted path. *)
Lemma handler_rooted (pkg : Package) (host rest : string) :
  let p := String Http.slash rest in
  (p = "/login"
   ∧ Http.handler (routes pkg) host p = (httpLogger (loginHandler pkg), "/login"))
  ∨ (p = "/callback"
     ∧ Http.handler (routes pkg) host p = (httpLogger (callbackHandler pkg), "/callback"))
  ∨ (p = "/logout"
     ∧ Http.handler (routes pkg) host p
       = (loginRequired pkg (logoutHandler pkg), "/logout"))
  ∨ (p = "/commandline"
     ∧ Http.handler (routes pkg) host p
       = (loginRequired pkg (commandlineHandler pkg), "/commandline"))
  ∨ ((p ∉ ["/login"; "/callback"; "/logout"; "/commandline"])
     ∧ Http.handler (routes pkg) host p = (httpLogger (homeHandler pkg), "/")).
Proof.
  intros p.
  destruct (decide (p = "/login")) as [Heq|Hlogin]; [left; by rewrite Heq|].
  destruct (decide (p = "/callback")) as [Heq|Hcallback]; [right; left; by rewrite Heq|].
  destruct (decide (p = "/logout")) as [Heq|Hlogout];
    [right; right; left; by rewrite Heq|].
  destruct (decide (p = "/commandline")) as [Heq|Hcmd];
    [right; right; right; left; by rewrite Heq|].
  do 4 right. split.
  - rewrite !not_elem_of_cons. repeat split; try done. apply not_elem_of_nil.
  - pose proof (routes_match_root pkg rest Hlogin Hcallback Hlogout Hcmd) as Hroot.
    unfold Http.handler. fold p in Hroot. by rewrite Hroot.
Qed.

(** X4. No request other than CONNECT is answered by the not-found
    handler: the pattern found for it is one of the five registered
    ones. A path that is not in canonical form gets the mux's permanent
    redirect to the cleaned path; a canonical path gets the handler
    registered for it, exactly for /login, /callback, /logout and
    /commandline, and the logged home handler for every other one. *)
Theorem dispatch_never_misses
    (pkg : Package) (env : Env) (srv : HttpServer.Server) (wd : World)
    (r : Http.Request) (u : Url) :
  main_startup pkg env initial = Continue srv wd →
  Http.Method r ≠ "CONNECT" →
  let found := Http.Handler (DefaultServeMux wd) r u in
  found.2 ∈ patterns
  ∧ ((Http.cleanPath (Path u) ≠ Path u
      ∧ found.1 = Http.RedirectHandler
                    (url_String {| Path := Http.cleanPath (Path u);
                                   RawQuery := RawQuery u |})
                    Http.StatusMovedPermanently)
     ∨ (Http.cleanPath (Path u) = Path u
        ∧ ((Path u = "/login" ∧ found.1 = httpLogger (loginHandler pkg))
           ∨ (Path u = "/callback" ∧ found.1 = httpLogger (callbackHandler pkg))
           ∨ (Path u = "/logout" ∧ found.1 = loginRequired pkg (logoutHandler pkg))
           ∨ (Path u = "/commandline"
              ∧ found.1 = loginRequired pkg (commandlineHandler pkg))
           ∨ ((Path u ∉ ["/login"; "/callback"; "/logout"; "/commandline"])
              ∧ found.1 = httpLogger (homeHandler pkg))))).
Proof.
  intros Hrun Hmethod. rewrite (startup_routes pkg env srv wd Hrun). cbn zeta.
  assert (∀ host rest,
            (Http.handler (routes pkg) host (String Http.slash rest)).2 ∈ patterns)
    as Hpattern.
  { intros host rest. unfold patterns.
    destruct (handler_rooted pkg host rest)
      as [[_ ->]|[[_ ->]|[[_ ->]|[[_ ->]|[_ ->]]]]]; cbn;
      rewrite !elem_of_cons; auto 10. }
  destruct (decide (Http.cleanPath (Path u) = Path u)) as [Hclean|Hdirty].
  - rewrite Handler_canonical by done.
    destruct (cleanPath_fixed_rooted _ Hclean) as [rest Hrest]. rewrite Hrest.
    split; [apply Hpattern|]. right. split; [by rewrite <- Hrest|].
    destruct (handler_rooted pkg (Http.Host r) rest)
      as [[? ->]|[[? ->]|[[? ->]|[[? ->]|[? ->]]]]]; auto 10.
  - unfold Http.Handler. rewrite decide_True by done. rewrite decide_True by done.
    cbn [fst snd]. split; [|by left].
    destruct (cleanPath_rooted (Path u)) as [rest ->]. apply Hpattern.
Qed.

Lemma dispatch_never_misses_witness :
  let found := Http.Handler (DefaultServeMux Sample.world)
                 (Sample.get "/commandline/kubeconfig" "").1
                 (Sample.get "/commandline/kubeconfig" "").2 in
  found.2 = "/" ∧ found.1 = httpLogger (homeHandler Sample.pkg).
Proof.
  destruct (dispatch_never_misses
              Sample.pkg Sample.env (server_of Sample.config) Sample.world
              (Sample.get "/commandline/kubeconfig" "").1
              (Sample.get "/commandline/kubeconfig" "").2
              ltac:(vm_compute; reflexivity) ltac:(discriminate))
    as [_ [[Hdirty _]|[_ Hfound]]].
  - by destruct Hdirty.
  - split; [reflexivity|].
    destruct Hfound as [[Hp _]|[[Hp _]|[[Hp _]|[[Hp _]|[_ Hhome]]]]];
      try discriminate Hp.
    exact Hhome.
Defined.

(** ** The logging wrapper *)

(** X5. [httpLogger] is transparent: around any handler, and nested any
    number of times, it leaves the handler's response, its way of
    ending (return or panic) and the request's URL as they are, and
    adds to the log one access line per wrapper after the handler's
    own lines. *)
Theorem httpLogger_is_transparent
    (fn : Http.HandlerFunc) (r : Http.Request) (x : Http.Exchange) (n : nat) :
  let handled := fn r x in
  let logged_n := Nat.iter n httpLogger fn r x in
  logged_n.2 = handled.2
  ∧ Http.w logged_n.1 = Http.w handled.1
  ∧ Http.URL logged_n.1 = Http.URL handled.1
  ∧ Http.stdlog logged_n.1
    = (Http.stdlog handled.1 ++ repeat (access_line r handled.1) n)%list.
Proof.
  cbn zeta. induction n as [|n (Hdone & Hw & Hurl & Hlog)].
  - repeat split. cbn. by rewrite app_nil_r.
  - rewrite Nat.iter_succ, httpLogger_unfold. cbn. repeat split; try done.
    rewrite Hlog. unfold access_line. rewrite Hurl.
    rewrite <- app_assoc. f_equal. symmetry. apply repeat_cons.
Qed.

(** ** Signals *)

(** The signal channel never holds more than its capacity. *)
Lemma exec_chan_capacity (l : Label) (s s' : Sys) :
  (∀ q, signalChan s = Some q → (length q ≤ 1)%nat) →
  exec l s = Some s' →
  ∀ q, signalChan s' = Some q → (length q ≤ 1)%nat.
Proof.
  destruct s as [w srv' mpc spc lst sh act ans ch ntf nw st].
  intros Hcap Hstep q Hq. cbn in *. open_step Hstep; cbn in *; simplify_eq;
    try (by apply Hcap); cbn; try lia.
  specialize (Hcap _ eq_refl). cbn in Hcap. lia.
Qed.

Lemma reaches_chan_capacity (wd : World) (srv : HttpServer.Server) (s : Sys) :
  reaches (boot wd srv) s → ∀ q, signalChan s = Some q → (length q ≤ 1)%nat.
Proof.
  intros [ls Hrun]. revert Hrun.
  assert (∀ q, signalChan (boot wd srv) = Some q → (length q ≤ 1)%nat) as Hboot
    by done.
  revert Hboot. generalize (boot wd srv) as s0. revert s.
  induction ls as [|l ls IH]; intros s s0 Hcap Hrun; cbn in Hrun.
  - by simplify_eq.
  - destruct (exec l s0) as [s1|] eqn:Hstep; [|done].
    eauto using exec_chan_capacity.
Qed.

(** X6. Once [signal.Notify] has been called, a SIGINT or SIGTERM never
    ends the process by itself and never disturbs the threads: it is
    put in the channel when the channel is empty and dropped otherwise,
    the channel never holding more than one signal. Before that call
    the signal ends the process. *)
Theorem signals_are_buffered_once_notified
    (wd : World) (srv : HttpServer.Server) (s : Sys) (sig : Signal) :
  reaches (boot wd srv) s →
  status s = None →
  ∃ s',
    exec (Deliver sig) s = Some s'
    ∧ ((main_rank (mainpc s) < 3)%nat → status s' = Some (KilledBy sig))
    ∧ ((3 ≤ main_rank (mainpc s))%nat →
       status s' = None
       ∧ mainpc s' = mainpc s
       ∧ servepc s' = servepc s
       ∧ listener s' = listener s
       ∧ inShutdown s' = inShutdown s
       ∧ active s' = active s
       ∧ world s' = world s
       ∧ (signalChan s = Some [] → signalChan s' = Some [sig])
       ∧ (∀ held, signalChan s = Some [held] → signalChan s' = Some [held])
       ∧ ∃ q, signalChan s' = Some q ∧ (length q ≤ 1)%nat).
Proof.
  intros Hreach Hst.
  pose proof (reaches_Inv _ _ _ Hreach) as Hinv.
  pose proof (reaches_chan_capacity _ _ _ Hreach) as Hcap.
  pose proof (inv_notified _ _ _ Hinv) as Hnt.
  pose proof (inv_chan _ _ _ Hinv) as Hch.
  unfold exec, step_signal. rewrite Hst, Hnt.
  destruct (decide (3 ≤ main_rank (mainpc s))%nat) as [Hrank|Hrank].
  - rewrite bool_decide_eq_true_2 by done.
    destruct (Hch ltac:(lia)) as [q Hq]. rewrite Hq.
    specialize (Hcap q Hq).
    destruct q as [|held [|]]; cbn in Hcap; try lia;
      (eexists; split; [reflexivity|]; split; [lia|]; intros _; cbn;
       repeat split; try done; try (by destruct s); try (intros; by simplify_eq);
       eexists; split; [first [reflexivity|eassumption]|cbn; lia]).
  - rewrite bool_decide_eq_false_2 by done.
    eexists. split; [reflexivity|]. split; [done|lia].
Qed.

Lemma signals_are_buffered_once_notified_witness :
  ∃ s s1 s2,
    run Sample.to_serving Sample.process = Some s
    ∧ exec (Deliver SIGINT) s = Some s1
    ∧ signalChan s1 = Some [SIGINT]
    ∧ exec (Deliver SIGTERM) s1 = Some s2
    ∧ signalChan s2 = Some [SIGINT]
    ∧ status s2 = None.
Proof.
  destruct (run Sample.to_serving Sample.process) as [s|] eqn:Hrun; [|discriminate].
  assert (reaches Sample.process s) as Hreach by (by exists Sample.to_serving).
  vm_compute in Hrun. injection Hrun as Hs.
  destruct (signals_are_buffered_once_notified
              Sample.world (server_of Sample.config) s SIGINT Hreach
              ltac:(by rewrite <- Hs))
    as (s1 & Hstep1 & _ & Hnotified1).
  destruct (Hnotified1 ltac:(rewrite <- Hs; cbn; lia))
    as (Hst1 & Hmain1 & _ & _ & _ & _ & _ & Hput & _).
  destruct (signals_are_buffered_once_notified
              Sample.world (server_of Sample.config) s1 SIGTERM
              (reaches_exec _ _ _ _ Hreach Hstep1) Hst1)
    as (s2 & Hstep2 & _ & Hnotified2).
  destruct (Hnotified2 ltac:(rewrite Hmain1, <- Hs; cbn; lia))
    as (Hst2 & _ & _ & _ & _ & _ & _ & _ & Hdrop & _).
  exists s, s1, s2. split; [reflexivity|].
  assert (signalChan s1 = Some [SIGINT]) as Hch1
    by (apply Hput; by rewrite <- Hs).
  repeat split; try done. by apply Hdrop.
Defined.

(** ** How the process ends *)

(** Without a delivered signal [main] does not get past the receive,
    and the only way out is the goroutine's [log.Fatal]. *)
Lemma exec_without_signal (srv : HttpServer.Server) (wd0 : World) (c : Config)
    (l : Label) (s s' : Sys) :
  Inv srv wd0 s → cfg wd0 = Some c → is_Deliver l = false →
  (main_rank (mainpc s) ≤ 3)%nat →
  signalChan s = None ∨ signalChan s = Some [] →
  exec l s = Some s' →
  (main_rank (mainpc s') ≤ 3)%nat
  ∧ (signalChan s' = None ∨ signalChan s' = Some [])
  ∧ (status s' = None ∨ status s' = Some (ExitCode 1))
  ∧ (is_failed_Listen l = false →
     (∀ err, servepc s ≠ ServeReturned err) →
     status s' = None ∧ ∀ err, servepc s' ≠ ServeReturned err).
Proof.
  destruct s as [w srv' mpc spc lst sh act ans ch ntf nw st].
  intros [_ Hcfg _ _ _ _ _ _ _ Hsh _ _ _ _] Hc Hl Hrank Hch Hstep.
  cbn in *. rewrite Hc in Hcfg.
  open_step Hstep; cbn in *; try lia; try congruence;
    try (destruct Hch; congruence);
    try (exfalso; symmetry in Hsh; apply bool_decide_eq_true_1 in Hsh; lia).
  all: try assumption.
  all: repeat split; auto; try lia.
  all: try (exfalso;
            match goal with
            | H : ∀ e : error, ServeReturned _ ≠ ServeReturned e |- _ => by eapply H
            end).
  all: intros err' Herr'; by simplify_eq.
Qed.

Lemma run_without_signal (srv : HttpServer.Server) (wd0 : World) (c : Config)
    (ls : list Label) (s s' : Sys) :
  Inv srv wd0 s → cfg wd0 = Some c →
  Forall (fun l => is_Deliver l = false) ls →
  (main_rank (mainpc s) ≤ 3)%nat →
  signalChan s = None ∨ signalChan s = Some [] →
  status s = None →
  run ls s = Some s' →
  (main_rank (mainpc s') ≤ 3)%nat
  ∧ (status s' = None ∨ status s' = Some (ExitCode 1))
  ∧ (Forall (fun l => is_failed_Listen l = false) ls →
     (∀ err, servepc s ≠ ServeReturned err) →
     status s' = None).
Proof.
  revert s. induction ls as [|l ls IH];
    intros s Hinv Hc Hls Hrank Hch Hst Hrun; cbn in Hrun.
  - simplify_eq. auto.
  - destruct (exec l s) as [s1|] eqn:Hstep; [|done].
    apply Forall_cons in Hls as [Hl Hls].
    destruct (exec_without_signal srv wd0 c l s s1 Hinv Hc Hl Hrank Hch Hstep)
      as (Hrank1 & Hch1 & Hst1 & Hquiet1).
    destruct ls as [|l' ls'].
    + cbn in Hrun. simplify_eq. repeat split; [done..|].
      intros Hok Hpc. apply Forall_cons in Hok as [Hok _].
      by destruct (Hquiet1 Hok Hpc).
    + destruct Hst1 as [Hst1|Hst1].
      * destruct (IH s1 (exec_Inv _ _ _ _ _ Hinv Hstep) Hc Hls Hrank1 Hch1 Hst1 Hrun)
          as (Hrank' & Hst' & Hquiet').
        repeat split; [done..|].
        intros Hok Hpc. apply Forall_cons in Hok as [Hok Hoks].
        destruct (Hquiet1 Hok Hpc) as [_ Hpc1]. by apply Hquiet'.
      * cbn in Hrun. by rewrite (exec_ended l' s1 _ Hst1) in Hrun.
Qed.

(** X7. The process ends only through a signal or a failed serve call.
    In every run in which no signal is delivered, [main] never gets
    past the receive and [Shutdown] is never called; the process is
    alive or has ended with exit code 1; and when, besides, no serve
    call has failed to bind, it is alive. *)
Theorem process_ends_only_by_signal_or_serve_failure
    (pkg : Package) (env : Env) (srv : HttpServer.Server) (wd : World)
    (ls : list Label) (s : Sys) :
  main_startup pkg env initial = Continue srv wd →
  run ls (boot wd srv) = Some s →
  Forall (fun l => is_Deliver l = false) ls →
  (main_rank (mainpc s) ≤ 3)%nat
  ∧ inShutdown s = false
  ∧ (status s = None ∨ status s = Some (ExitCode 1))
  ∧ (Forall (fun l => is_failed_Listen l = false) ls → status s = None).
Proof.
  intros Hstart Hrun Hls.
  destruct (startup_inv pkg env srv wd Hstart) as (c & lg & _ & -> & ->).
  set (wd := started pkg c (system_or_empty env ∪ custom_CA_certs env c) lg) in *.
  assert (cfg wd = Some c) as Hcfg by reflexivity.
  destruct (run_without_signal (server_of c) wd c ls (boot wd (server_of c)) s
              (boot_Inv _ _) Hcfg Hls ltac:(cbn; lia) ltac:(by left) eq_refl Hrun)
    as (Hrank & Hst & Hquiet).
  assert (reaches (boot wd (server_of c)) s) as Hreach by (by exists ls).
  split; [done|]. split.
  - rewrite (inv_inShutdown _ _ _ (reaches_Inv _ _ s Hreach)).
    by rewrite bool_decide_eq_false_2 by lia.
  - split; [done|]. intros Hok. by apply Hquiet.
Qed.

Lemma process_ends_only_by_signal_or_serve_failure_witness :
  ∃ s,
    run (Sample.to_serving
         ++ [Accept (Sample.get "/" "").1 (Sample.get "/" "").2; Tick; Finish 0; Tick])
        Sample.process = Some s
    ∧ status s = None
    ∧ inShutdown s = false
    ∧ mainpc s = AtReceive.
Proof.
  destruct (run (Sample.to_serving
                 ++ [Accept (Sample.get "/" "").1 (Sample.get "/" "").2;
                     Tick; Finish 0; Tick]) Sample.process) as [s|] eqn:Hrun;
    [|discriminate].
  destruct (process_ends_only_by_signal_or_serve_failure
              Sample.pkg Sample.env (server_of Sample.config) Sample.world _ s
              ltac:(vm_compute; reflexivity) Hrun ltac:(repeat constructor))
    as (_ & Hsh & _ & Halive).
  exists s. split; [reflexivity|]. split; [apply Halive; repeat constructor|].
  split; [exact Hsh|]. vm_compute in Hrun. by injection Hrun as <-.
Defined.
